(** * Verification of the workflow engine ([app/engine.py])

    A shallow embedding of [WorkflowEngine.run_workflow] and
    [WorkflowEngine._evaluate_condition], of the code-review workflow of
    [app/workflows/code_review.py] with the tool registry of
    [app/main.py], followed by the properties of the interpreter.

    Modelling choices:
    - Python values ([Any]) are the tagged union [pyval]: [None], [bool],
      [int] (unbounded, hence [Z]), [str], [list] and [dict].  Floating
      point numbers are not modelled.
    - Dictionaries used as maps ([nodes], [edges], [self.tools], the state)
      are [gmap]s; a dictionary that the code iterates over
      ([conditions.items()]) or that is a value is an association list in
      insertion order.
    - Dictionary objects live in a heap addressed by locations, so that
      [initial_state.copy()] allocates a new object and [state.update]
      writes to that object only.
    - [datetime.now()] reads a clock: the n-th reading of a run is [now n].
    - A call that completes returns or raises ([pyres]); tools are calls
      that complete.  The [while] loop is run with fuel, and the run is
      shown never to run out of it. *)

From Stdlib Require Import ZArith String.
From stdpp Require Import gmap strings list fin_maps sorting.

#[local] Set Warnings "-register-all".
#[local] Open Scope Z_scope.
#[local] Open Scope string_scope.
#[local] Open Scope list_scope.

(** ** Python values *)

(** The values of the state and of condition literals.  [float] (and with
    it [NaN]), [set] and user-defined objects are outside this type:
    statements about "every value" range over the six kinds below. *)
Inductive pyval :=
| PNone
| PBool (b : bool)
| PInt (n : Z)
| PStr (s : string)
| PList (xs : list pyval)
| PDict (kvs : list (string * pyval)).

(** A raised exception: whether its class derives from [Exception] (the
    classes [except Exception] catches) and what [str(e)] gives. *)
Record pyexc := PyExc { exc_is_Exception : bool; exc_str : string }.

(** The [TypeError] of an ordering comparison between unordered values. *)
Definition TypeError : pyexc :=
  {| exc_is_Exception := true; exc_str := "not supported between instances" |}.

(** What a call does when it completes: it returns or it raises. *)
Inductive pyres (A : Type) :=
| Returns (a : A)
| Raises (e : pyexc).
Arguments Returns {A} a.
Arguments Raises {A} e.

(** Lookup in an association list: the first binding of the key. *)
Fixpoint assoc {A} (k : string) (kvs : list (string * A)) : option A :=
  match kvs with
  | [] => None
  | (k', v) :: rest => if String.eqb k k' then Some v else assoc k rest
  end.

(** [a == b].  [bool] is a subclass of [int], so [True == 1]; lists are
    equal pointwise; dictionaries are equal when they bind the same keys to
    equal values, whatever the order; values of unrelated types differ. *)
Fixpoint py_eq (a b : pyval) : bool :=
  match a, b with
  | PNone, PNone => true
  | PBool x, PBool y => Bool.eqb x y
  | PBool x, PInt y => Z.eqb (Z.b2z x) y
  | PInt x, PBool y => Z.eqb x (Z.b2z y)
  | PInt x, PInt y => Z.eqb x y
  | PStr x, PStr y => String.eqb x y
  | PList xs, PList ys =>
      (fix all2 (xs ys : list pyval) : bool :=
         match xs, ys with
         | [], [] => true
         | x :: xs', y :: ys' => py_eq x y && all2 xs' ys'
         | _, _ => false
         end) xs ys
  | PDict xs, PDict ys =>
      Nat.eqb (length xs) (length ys) &&
      (fix all (xs : list (string * pyval)) : bool :=
         match xs with
         | [] => true
         | (k, v) :: xs' =>
             match assoc k ys with
             | Some w => py_eq v w
             | None => false
             end && all xs'
         end) xs
  | _, _ => false
  end.

(** The ordering behind [<], [<=], [>], [>=]: numbers by value, strings
    lexicographically, lists lexicographically on the first pair of
    elements that are not [==]; every other pair of values is unordered,
    which Python reports by raising [TypeError] ([None] here).  The
    ordering is that of the values of [pyval]: there is no [float], so no
    pair of numbers for which all four operators are false. *)
Fixpoint py_order (a b : pyval) : option comparison :=
  match a, b with
  | PBool x, PBool y => Some (Z.compare (Z.b2z x) (Z.b2z y))
  | PBool x, PInt y => Some (Z.compare (Z.b2z x) y)
  | PInt x, PBool y => Some (Z.compare x (Z.b2z y))
  | PInt x, PInt y => Some (Z.compare x y)
  | PStr x, PStr y => Some (String.compare x y)
  | PList xs, PList ys =>
      (fix lex (xs ys : list pyval) : option comparison :=
         match xs, ys with
         | [], [] => Some Eq
         | [], _ :: _ => Some Lt
         | _ :: _, [] => Some Gt
         | x :: xs', y :: ys' => if py_eq x y then lex xs' ys' else py_order x y
         end) xs ys
  | _, _ => None
  end.

Definition py_compare (holds : comparison -> bool) (a b : pyval) : pyres bool :=
  match py_order a b with
  | Some c => Returns (holds c)
  | None => Raises TypeError
  end.

Definition py_ge := py_compare (fun c => match c with Lt => false | _ => true end).
Definition py_gt := py_compare (fun c => match c with Gt => true | _ => false end).
Definition py_le := py_compare (fun c => match c with Gt => false | _ => true end).
Definition py_lt := py_compare (fun c => match c with Lt => true | _ => false end).

(** ** The condition evaluator *)

(** [operator == lit] for an [operator] that may be [None]. *)
Definition str_is (s : option string) (lit : string) : bool :=
  match s with
  | Some s => String.eqb s lit
  | None => false
  end.

(** [_evaluate_condition(self, state, field, operator, value)].  [field]
    and [operator] come from [condition_def.get], so either may be [None];
    [None] is never a key of the state and is no operator. *)
Definition _evaluate_condition (state : gmap string pyval)
    (field operator : option string) (value : pyval) : pyres bool :=
  match field ≫= (state !!.) with
  | None => Returns false
  | Some state_value =>
      if str_is operator ">=" then py_ge state_value value
      else if str_is operator ">" then py_gt state_value value
      else if str_is operator "<=" then py_le state_value value
      else if str_is operator "<" then py_lt state_value value
      else if str_is operator "==" then Returns (py_eq state_value value)
      else if str_is operator "!=" then Returns (negb (py_eq state_value value))
      else Returns false
  end.

(** ** Graphs, tools, heap and log *)

(** A node definition, read through [node_def.get("function")]: the
    ["function"] entry is a string or is absent.  A definition that gives
    an unhashable value as its function, for which [func_name in
    self.tools] raises, is outside this type. *)
Record node_def := NodeDef {
  nd_function : option string;
  nd_description : option string
}.

(** A condition definition as [condition_def.get] reads it: an absent
    ["field"], ["operator"] or ["target"] is [None], an absent ["value"]
    is the value [None].  The definition is a dictionary, and its field,
    operator and target are strings when present. *)
Record condition_def := ConditionDef {
  cd_field : option string;
  cd_operator : option string;
  cd_value : pyval;
  cd_target : option string
}.

(** A registered tool is called with the state dictionary itself: it may
    update that dictionary in place (first component: the dictionary after
    the call) and it returns a value or raises.  The values of a
    dictionary are held by value, so a tool that writes through the state
    to a list or dictionary shared with another object is outside this
    type, as is a tool that writes to objects it reaches otherwise. *)
Definition tool : Type := gmap string pyval -> gmap string pyval * pyres pyval.

(** [register_tool(self, name, func)]: [self.tools[name] = func]. *)
Definition register_tool (tools : gmap string tool) (name : string) (func : tool)
    : gmap string tool :=
  <[name := func]> tools.

(** The tool that only reads the state. *)
Definition pure_tool (f : gmap string pyval -> pyres pyval) : tool :=
  fun state => (state, f state).

Definition loc := nat.

(** The dictionary objects of the heap. *)
Abbreviation heap := (gmap loc (gmap string pyval)).

(** The keys a log entry gets after ["iteration"], ["node"] and
    ["timestamp"]. *)
Inductive entry_status :=
| NoStatus
| Success (output : pyval)
| Error (error : string)
| Skipped (reason : string).

Inductive log_entry :=
| StepEntry (iteration : Z) (node : option string) (timestamp : string)
    (status : entry_status)
| WarningEntry (warning : string) (timestamp : string).

(** [entry.get("status")]. *)
Definition status_of (entry : log_entry) : option string :=
  match entry with
  | StepEntry _ _ _ (Success _) => Some "success"
  | StepEntry _ _ _ (Error _) => Some "error"
  | StepEntry _ _ _ (Skipped _) => Some "skipped"
  | _ => None
  end.

(** [entry.get("reason")]. *)
Definition reason_of (entry : log_entry) : option string :=
  match entry with
  | StepEntry _ _ _ (Skipped reason) => Some reason
  | _ => None
  end.

(** [entry.get("node")]; [None] also when the key is absent. *)
Definition node_of (entry : log_entry) : option string :=
  match entry with
  | StepEntry _ node _ _ => node
  | WarningEntry _ _ => None
  end.

(** [entry.get("iteration")]. *)
Definition iteration_of (entry : log_entry) : option Z :=
  match entry with
  | StepEntry i _ _ _ => Some i
  | WarningEntry _ _ => None
  end.

Definition is_warning (entry : log_entry) : bool :=
  match entry with
  | WarningEntry _ _ => true
  | StepEntry _ _ _ _ => false
  end.

(** [state.update(result)]: the bindings of [result] in order, a later one
    overwriting an earlier one. *)
Definition dict_update (state : gmap string pyval)
    (result : list (string * pyval)) : gmap string pyval :=
  foldl (fun s kv => <[kv.1 := kv.2]> s) state result.

(** Truth value of an optional string: [None] and [""] are false. *)
Definition truthy (s : option string) : bool :=
  match s with
  | Some s => negb (String.eqb s "")
  | None => false
  end.

(** ** The interpreter *)

(** The local variables of [run_workflow] that the loop changes, with the
    heap and the number of clock readings made so far.  [current_node] is
    [None] only after [edges.get("START")] found nothing. *)
Record run_state := RunState {
  rs_heap : heap;
  current_node : option string;
  iteration : Z;
  execution_log : list log_entry;
  clock_reads : nat
}.

(** How an iteration of the loop ends; a propagating exception leaves the
    heap as it is at that point. *)
Inductive step_result :=
| Continue (rs : run_state)
| Break (rs : run_state)
| Throw (h : heap) (e : pyexc).

(** How the execution of a node ends: the entry is ready to be appended,
    the tool raised an [Exception], or it raised past [except Exception]. *)
Inductive exec_result :=
| Executed (h : heap) (entry : log_entry)
| Failed (h : heap) (entry : log_entry)
| Escaped (h : heap) (e : pyexc).

(** The heap an iteration leaves. *)
Definition step_heap (r : step_result) : heap :=
  match r with
  | Continue rs | Break rs => rs_heap rs
  | Throw h _ => h
  end.

(** The heap the execution of a node leaves. *)
Definition exec_heap (r : exec_result) : heap :=
  match r with
  | Executed h _ | Failed h _ | Escaped h _ => h
  end.

Definition default_max_iterations : Z := 10.

Section Engine.
Variable tools : gmap string tool.
Variable now : nat -> string.
Variable nodes : gmap string node_def.
Variable edges : gmap string string.
Variable conditional_edges : gmap string (list (string * condition_def)).

(** Lines 60-85: the node's tool is run on the dictionary at [state]. *)
Definition execute_node (h : heap) (state : loc) (iteration : Z)
    (current_node : option string) (timestamp : string) : exec_result :=
  match current_node ≫= (nodes !!.) with
  | Some node_def =>
      let func_name := nd_function node_def in
      match (if truthy func_name then func_name ≫= (tools !!.) else None) with
      | Some f =>
          let '(after, r) := f (h !!! state) in
          let h := <[state := after]> h in
          match r with
          | Returns result =>
              let h :=
                match result with
                | PDict kvs => <[state := dict_update after kvs]> h
                | _ => h
                end in
              Executed h (StepEntry iteration current_node timestamp (Success result))
          | Raises e =>
              if exc_is_Exception e
              then Failed h (StepEntry iteration current_node timestamp (Error (exc_str e)))
              else Escaped h e
          end
      | None =>
          Executed h (StepEntry iteration current_node timestamp
                        (Skipped "No function defined"))
      end
  | None => Executed h (StepEntry iteration current_node timestamp NoStatus)
  end.

(** Lines 96-104: the [for] loop over [conditions.items()]; the result is
    [next_node]. *)
Fixpoint scan_conditions (state : gmap string pyval)
    (conditions : list (string * condition_def)) : pyres (option string) :=
  match conditions with
  | [] => Returns None
  | (condition_key, condition_def) :: rest =>
      match _evaluate_condition state (cd_field condition_def)
              (cd_operator condition_def) (cd_value condition_def) with
      | Raises e => Raises e
      | Returns true => Returns (cd_target condition_def)
      | Returns false => scan_conditions state rest
      end
  end.

(** Lines 90-108: the next node. *)
Definition route (state : gmap string pyval) (current_node : option string)
    : pyres string :=
  match
    match current_node ≫= (conditional_edges !!.) with
    | Some conditions => scan_conditions state conditions
    | None => Returns None
    end
  with
  | Raises e => Raises e
  | Returns (Some next_node) => Returns next_node
  | Returns None => Returns (default "END" (current_node ≫= (edges !!.)))
  end.

(** Lines 43-110: one iteration of the [while] loop. *)
Definition loop_body (state : loc) (rs : run_state) : step_result :=
  let iteration := iteration rs + 1 in
  let timestamp := now (clock_reads rs) in
  let reads := S (clock_reads rs) in
  if str_is (current_node rs) "START" then
    let current_node := edges !! "START" in
    let rs := RunState (rs_heap rs) current_node iteration (execution_log rs) reads in
    if truthy current_node then Continue rs else Break rs
  else
    match execute_node (rs_heap rs) state iteration (current_node rs) timestamp with
    | Escaped h e => Throw h e
    | Failed h log_entry =>
        Break (RunState h (current_node rs) iteration
                 (execution_log rs ++ [log_entry]) reads)
    | Executed h log_entry =>
        let execution_log := execution_log rs ++ [log_entry] in
        match route (h !!! state) (current_node rs) with
        | Raises e => Throw h e
        | Returns next_node =>
            Continue (RunState h (Some next_node) iteration execution_log reads)
        end
    end.

(** Line 42: [current_node != "END" and iteration < max_iterations]. *)
Definition loop_cond (max_iterations : Z) (rs : run_state) : bool :=
  negb (str_is (current_node rs) "END") && (iteration rs <? max_iterations)%Z.

(** The [while] loop; [None] when the fuel does not suffice.  It ends
    in the state the statements after the loop see, or in an exception
    on its way to the caller. *)
Fixpoint while_loop (fuel : nat) (state : loc) (max_iterations : Z)
    (rs : run_state) : option (heap * pyres run_state) :=
  if loop_cond max_iterations rs then
    match fuel with
    | O => None
    | S fuel =>
        match loop_body state rs with
        | Continue rs => while_loop fuel state max_iterations rs
        | Break rs => Some (rs_heap rs, Returns rs)
        | Throw h e => Some (h, Raises e)
        end
    end
  else Some (rs_heap rs, Returns rs).

(** Lines 112-116: the warning entry. *)
Definition finish (max_iterations : Z) (rs : run_state) : list log_entry :=
  if (max_iterations <=? iteration rs)%Z
  then execution_log rs ++ [WarningEntry "Max iterations reached" (now (clock_reads rs))]
  else execution_log rs.

(** Lines 37-40: the local variables before the loop, [state] being the
    location of the copy of the caller's dictionary. *)
Definition initial_run_state (h : heap) (initial_state state : loc) : run_state :=
  RunState (<[state := h !!! initial_state]> h) (Some "START") 0 [] 0.

(** [run_workflow(self, nodes, edges, conditional_edges, initial_state,
    max_iterations)] in the heap [h], [initial_state] being the location
    of the caller's dictionary: the heap the caller finds afterwards, and
    the returned pair of the state object and the log, or the exception
    raised to the caller. *)
Definition run_workflow (h : heap) (initial_state : loc) (max_iterations : Z)
    : option (heap * pyres (loc * list log_entry)) :=
  let state := fresh (dom h) in
  match while_loop (Z.to_nat max_iterations) state max_iterations
          (initial_run_state h initial_state state) with
  | None => None
  | Some (h', Raises e) => Some (h', Raises e)
  | Some (h', Returns rs) => Some (h', Returns (state, finish max_iterations rs))
  end.

(** The loop resumed in [rs], with as much fuel as the iteration counter
    leaves below [max_iterations]. *)
Definition run_from (state : loc) (max_iterations : Z) (rs : run_state)
    : option (heap * pyres run_state) :=
  while_loop (Z.to_nat (max_iterations - iteration rs)) state max_iterations rs.

(** [reaches state max_iterations rs rs']: the loop entered in [rs] is,
    some iterations later, at its head in [rs']. *)
Inductive reaches (state : loc) (max_iterations : Z) : run_state -> run_state -> Prop :=
| reaches_here rs : reaches state max_iterations rs rs
| reaches_next rs rs' rs'' :
    loop_cond max_iterations rs = true ->
    loop_body state rs = Continue rs' ->
    reaches state max_iterations rs' rs'' ->
    reaches state max_iterations rs rs''.

(** The verdict of one condition of a group on a state. *)
Definition condition_holds (state : gmap string pyval) (c : string * condition_def)
    : pyres bool :=
  _evaluate_condition state (cd_field c.2) (cd_operator c.2) (cd_value c.2).

End Engine.

(** ** Conditions that can be evaluated *)




(** ** The code-review workflow ([app/workflows/code_review.py]) *)

Definition code_review_nodes : gmap string node_def :=
  list_to_map [
    ("extract_functions",
      NodeDef (Some "extract_functions") (Some "Extract function definitions from code"));
    ("check_complexity",
      NodeDef (Some "check_complexity") (Some "Analyze code complexity"));
    ("detect_issues",
      NodeDef (Some "detect_issues") (Some "Detect code issues"));
    ("suggest_improvements",
      NodeDef (Some "suggest_improvements") (Some "Generate improvement suggestions"));
    ("refine_code",
      NodeDef (Some "refine_code") (Some "Apply refinements to improve quality"))
  ].

Definition code_review_edges : gmap string string :=
  list_to_map [
    ("START", "extract_functions");
    ("extract_functions", "check_complexity");
    ("check_complexity", "detect_issues");
    ("detect_issues", "suggest_improvements");
    ("suggest_improvements", "check_quality");
    ("check_quality", "END");
    ("refine_code", "suggest_improvements")
  ].

Definition code_review_conditional_edges
    : gmap string (list (string * condition_def)) :=
  {[ "check_quality" :=
       [ ("continue_loop",
           ConditionDef (Some "quality_score") (Some "<") (PInt 80) (Some "refine_code"));
         ("finish",
           ConditionDef (Some "quality_score") (Some ">=") (PInt 80) (Some "END")) ] ]}.

(** The registry of [app/main.py]: the engine is created ([__init__] sets
    [self.tools = {}]) and no tool is ever registered. *)
Definition main_tools : gmap string tool := ∅.

(** ** Graphs and tools of the testable properties *)

(** A clock for the examples. *)
Definition tick_clock (n : nat) : string :=
  String (Ascii.ascii_of_nat (48 + n)) "".

(** A heap with the caller's dictionary at location 0. *)
Definition heap_of (initial_state : gmap string pyval) : heap :=
  {[ 0%nat := initial_state ]}.

(** A handler that increments the numeric field [field] by 1:
    [lambda state: {field: state[field] + 1}]. *)
Definition increment (field : string) : tool :=
  pure_tool (fun state =>
    match state !! field with
    | Some (PInt n) => Returns (PDict [(field, PInt (n + 1))])
    | Some (PBool b) => Returns (PDict [(field, PInt (Z.b2z b + 1))])
    | Some _ => Raises TypeError
    | None => Raises (PyExc true field)
    end).

(** A handler that returns an empty update. *)
Definition noop : tool := pure_tool (fun _ => Returns (PDict [])).

(** A handler that raises [ValueError("boom")]. *)
Definition failing : tool := pure_tool (fun _ => Raises (PyExc true "boom")).

(** A handler that raises [SystemExit], which is no [Exception]. *)
Definition exiting : tool := pure_tool (fun _ => Raises (PyExc false "exit")).

Definition example_tools (field : string) : gmap string tool :=
  list_to_map [("increment", increment field); ("noop", noop);
               ("failing", failing); ("exiting", exiting)].

(** [START -> A -> B -> END], both nodes incrementing. *)
Definition linear_nodes : gmap string node_def :=
  list_to_map [("A", NodeDef (Some "increment") None);
               ("B", NodeDef (Some "increment") None)].

Definition linear_edges : gmap string string :=
  list_to_map [("START", "A"); ("A", "B"); ("B", "END")].

(** [START -> A -> A -> ...]: an unconditional self-loop. *)
Definition self_loop_nodes : gmap string node_def :=
  {[ "A" := NodeDef (Some "noop") None ]}.

Definition self_loop_edges : gmap string string :=
  list_to_map [("START", "A"); ("A", "A")].

(** [START -> A -> END] with a single node running [function]. *)
Definition single_nodes (function : string) : gmap string node_def :=
  {[ "A" := NodeDef (Some function) None ]}.

Definition single_edges : gmap string string :=
  list_to_map [("START", "A"); ("A", "END")].

(** Two conditions on node [A], both true when [score >= 10]. *)
Definition overlapping_conditions : gmap string (list (string * condition_def)) :=
  {[ "A" :=
       [ ("positive", ConditionDef (Some "score") (Some ">") (PInt 0) (Some "B"));
         ("large", ConditionDef (Some "score") (Some ">=") (PInt 10) (Some "C")) ] ]}.







(** ** Logs up to timestamps *)






(** The ["iteration"] values of the entries of a log, in order. *)
Definition iterations (log : list log_entry) : list Z := omap iteration_of log.

(** ** Tools ([app/tools.py]) *)

(** The number an [int] or a [bool] stands for in arithmetic and in an
    ordering against an [int]; no other value modelled here can be added
    to or ordered against an [int].  A [float] score is not covered. *)
Definition as_number (v : pyval) : option Z :=
  match v with
  | PInt n => Some n
  | PBool b => Some (Z.b2z b)
  | _ => None
  end.

(** The number of code points of a string held as its UTF-8 bytes: the
    bytes that are no continuation bytes. *)
Fixpoint utf8_length (s : string) : nat :=
  match s with
  | EmptyString => 0
  | String c rest =>
      let b := Ascii.nat_of_ascii c in
      ((if Nat.leb 128 b && Nat.ltb b 192 then 0 else 1) + utf8_length rest)%nat
  end.

(** [len(v)], defined on strings, lists and dictionaries. *)
Definition py_len (v : pyval) : option Z :=
  match v with
  | PStr s => Some (Z.of_nat (utf8_length s))
  | PList xs => Some (Z.of_nat (length xs))
  | PDict kvs => Some (Z.of_nat (length kvs))
  | _ => None
  end.

(** [state.get(key, default)]. *)
Definition state_get (state : gmap string pyval) (key : string) (dflt : pyval)
    : pyval :=
  default dflt (state !! key).

Section Tools.
(** [str(e)] for the [TypeError] that an operation raises on an operand it
    does not support; the wording of these messages is not modelled. *)
Variable type_error_text : string -> pyval -> string.

Definition type_error (operation : string) (operand : pyval) : pyexc :=
  PyExc true (type_error_text operation operand).

(** [suggest_improvements(state)]. *)
Definition suggest_improvements : tool :=
  pure_tool (fun state =>
    let issues := state_get state "issues" (PList []) in
    let complexity_score := state_get state "complexity_score" (PInt 0) in
    match as_number complexity_score with
    | None => Raises (type_error ">" complexity_score)
    | Some complexity =>
        let suggestions :=
          if Z.ltb 10 complexity
          then [PStr "Consider breaking down complex functions"] else [] in
        match py_len issues with
        | None => Raises (type_error "len" issues)
        | Some issue_count =>
            let suggestions :=
              if Z.ltb 0 issue_count
              then suggestions ++ [PStr "Address detected code issues"]
              else suggestions in
            let line_count := state_get state "line_count" (PInt 0) in
            match as_number line_count with
            | None => Raises (type_error ">" line_count)
            | Some lines =>
                let suggestions :=
                  if Z.ltb 100 lines
                  then suggestions ++
                         [PStr "Consider modularizing code into smaller functions"]
                  else suggestions in
                let quality_score :=
                  100 - issue_count * 10 -
                  (if Z.ltb 5 complexity then 5 else complexity) * 5 in
                let quality_score :=
                  if Z.ltb 0 quality_score then quality_score else 0 in
                Returns (PDict [("suggestions", PList suggestions);
                                ("quality_score", PInt quality_score)])
            end
        end
    end).

(** [refine_code(state)]. *)
Definition refine_code : tool :=
  pure_tool (fun state =>
    let current_score := state_get state "quality_score" (PInt 0) in
    let iteration := state_get state "iteration" (PInt 0) in
    match as_number current_score with
    | None => Raises (type_error "+" current_score)
    | Some score =>
        let improved_score := if Z.ltb (score + 15) 100 then score + 15 else 100 in
        match as_number iteration with
        | None => Raises (type_error "+" iteration)
        | Some i =>
            Returns (PDict [("quality_score", PInt improved_score);
                            ("iteration", PInt (i + 1));
                            ("refinement_applied", PBool true)])
        end
    end).

(** A registry with the two tools under the names the code-review
    workflow gives them, as [register_tool] builds it. *)
Definition review_tools : gmap string tool :=
  register_tool
    (register_tool ∅ "suggest_improvements" suggest_improvements)
    "refine_code" refine_code.

End Tools.

(** A wording for the messages of [TypeError], for the examples. *)
Definition plain_text (operation : string) (operand : pyval) : string :=
  "unsupported operand for " +:+ operation.

(** A state on which [suggest_improvements] and [refine_code] both return
    and from which [suggest_improvements] computes a score below 80. *)
Definition refinement_stuck (state : gmap string pyval) : Prop :=
  exists n c lines i,
    py_len (state_get state "issues" (PList [])) = Some n /\
    as_number (state_get state "complexity_score" (PInt 0)) = Some c /\
    as_number (state_get state "line_count" (PInt 0)) = Some lines /\
    as_number (state_get state "iteration" (PInt 0)) = Some i /\
    Z.max 0 (100 - 10 * n - 5 * Z.min c 5) < 80.

(** The local variables of a run that is inside the refinement loop of
    the code-review workflow, its state stuck. *)
Definition in_refinement_loop (state : loc) (rs : run_state) : Prop :=
  exists s,
    rs_heap rs !! state = Some s /\ refinement_stuck s /\
    ((current_node rs = Some "check_quality" /\
      exists v q, s !! "quality_score" = Some v /\ as_number v = Some q /\ q < 80) \/
     (current_node rs = Some "refine_code" /\
      exists q, as_number (state_get s "quality_score" (PInt 0)) = Some q) \/
     current_node rs = Some "suggest_improvements").

(** ** The HTTP handlers ([app/main.py]) *)

(** An entry of [graphs]. *)
Record graph_record := GraphRecord {
  g_id : string;
  g_name : string;
  g_nodes : gmap string node_def;
  g_edges : gmap string string;
  g_conditional_edges : gmap string (list (string * condition_def));
  g_created_at : string
}.

(** An entry of [runs]; [final_state] is held by its entries. *)
Record run_record := RunRecord {
  r_run_id : string;
  r_graph_id : string;
  r_final_state : gmap string pyval;
  r_execution_log : list log_entry;
  r_started_at : string
}.

(** The module-level dictionaries [graphs] and [runs]; the module-level
    [engine] is [WorkflowEngine()], whose registry stays [main_tools]. *)
Record app_state := AppState {
  graphs : gmap string graph_record;
  runs : gmap string run_record
}.

(** [GraphCreateRequest] and [GraphRunRequest]. *)
Record graph_create_request := GraphCreateRequest {
  req_nodes : gmap string node_def;
  req_edges : gmap string string;
  req_conditional_edges : option (gmap string (list (string * condition_def)));
  req_name : option string
}.

Record graph_run_request := GraphRunRequest {
  req_graph_id : string;
  req_initial_state : gmap string pyval
}.

(** How a handler ends: with a response body, with an [HTTPException], or
    with an exception it does not handle. *)
Inductive response (A : Type) :=
| Ok (body : A)
| HTTPException (status_code : Z) (detail : string)
| Unhandled (e : pyexc).
Arguments Ok {A} body.
Arguments HTTPException {A} status_code detail.
Arguments Unhandled {A} e.

(** [create_graph(request)]; [graph_id] is what [str(uuid.uuid4())] gives
    and [created_at] what [datetime.now().isoformat()] gives. *)
Definition create_graph (app : app_state) (request : graph_create_request)
    (graph_id created_at : string) : app_state * response (string * string) :=
  let name :=
    if truthy (req_name request) then default "" (req_name request)
    else "Graph-" +:+ substring 0 8 graph_id in
  let record :=
    GraphRecord graph_id name (req_nodes request) (req_edges request)
      (default ∅ (req_conditional_edges request)) created_at in
  (AppState (<[graph_id := record]> (graphs app)) (runs app),
   Ok (graph_id, "Graph created successfully")).

(** [create_code_review_graph()]. *)
Definition create_code_review_graph (app : app_state) (graph_id created_at : string)
    : app_state * response (string * string * string) :=
  let record :=
    GraphRecord graph_id "Code Review Workflow" code_review_nodes
      code_review_edges code_review_conditional_edges created_at in
  (AppState (<[graph_id := record]> (graphs app)) (runs app),
   Ok (graph_id, "Code review workflow created",
       "Use POST /graph/run with initial_state containing 'code' field")).

(** [run_graph(request)]: [run_id] is what [str(uuid.uuid4())] gives, [now]
    the clock the engine reads and [started_at] the reading made after the
    run.  The request's [initial_state] is a dictionary of its own, alone
    in the heap of the run.  The body of the response holds [run_id],
    [final_state] and [execution_log].  [None] when the engine's loop runs
    out of fuel. *)
Definition run_graph (app : app_state) (request : graph_run_request)
    (run_id : string) (now : nat -> string) (started_at : string)
    : option (app_state *
              response (string * gmap string pyval * list log_entry)) :=
  match graphs app !! req_graph_id request with
  | None => Some (app, HTTPException 404 "Graph not found")
  | Some graph =>
      match run_workflow main_tools now (g_nodes graph) (g_edges graph)
              (g_conditional_edges graph)
              (heap_of (req_initial_state request)) 0%nat
              default_max_iterations with
      | None => None
      | Some (_, Raises e) => Some (app, Unhandled e)
      | Some (h, Returns (state, execution_log)) =>
          let final_state := h !!! state in
          let record :=
            RunRecord run_id (req_graph_id request) final_state execution_log
              started_at in
          Some (AppState (graphs app) (<[run_id := record]> (runs app)),
                Ok (run_id, final_state, execution_log))
      end
  end.

(** [get_run_state(run_id)]. *)
Definition get_run_state (app : app_state) (run_id : string) : response run_record :=
  match runs app !! run_id with
  | None => HTTPException 404 "Run not found"
  | Some record => Ok record
  end.

(** The log of the code-review workflow when nothing is registered and
    the state has no [quality_score]. *)
Definition skipped_review_log (now : nat -> string) : list log_entry :=
  [StepEntry 2 (Some "extract_functions") (now 1%nat) (Skipped "No function defined");
   StepEntry 3 (Some "check_complexity") (now 2%nat) (Skipped "No function defined");
   StepEntry 4 (Some "detect_issues") (now 3%nat) (Skipped "No function defined");
   StepEntry 5 (Some "suggest_improvements") (now 4%nat) (Skipped "No function defined");
   StepEntry 6 (Some "check_quality") (now 5%nat) NoStatus].

(** * Properties *)

(** ** The loop: iteration counter, fuel, heap *)

Section Loop.
Variable tools : gmap string tool.
Variable now : nat -> string.
Variable nodes : gmap string node_def.
Variable edges : gmap string string.
Variable conditional_edges : gmap string (list (string * condition_def)).

#[local] Abbreviation loop_body' := (loop_body tools now nodes edges conditional_edges).
#[local] Abbreviation while_loop' := (while_loop tools now nodes edges conditional_edges).
#[local] Abbreviation run_from' := (run_from tools now nodes edges conditional_edges).
#[local] Abbreviation run_workflow' := (run_workflow tools now nodes edges conditional_edges).
#[local] Abbreviation reaches' := (reaches tools now nodes edges conditional_edges).
#[local] Abbreviation execute_node' := (execute_node tools nodes).
#[local] Abbreviation route' := (route edges conditional_edges).

Lemma loop_body_continue_iteration state rs rs' :
  loop_body' state rs = Continue rs' -> iteration rs' = iteration rs + 1.
Proof.
  unfold loop_body. intros H.
  repeat case_match; simplify_eq; reflexivity.
Qed.

Lemma loop_body_break_iteration state rs rs' :
  loop_body' state rs = Break rs' -> iteration rs' = iteration rs + 1.
Proof.
  unfold loop_body. intros H.
  repeat case_match; simplify_eq; reflexivity.
Qed.

Lemma loop_cond_true max_iterations rs :
  loop_cond max_iterations rs = true ->
  str_is (current_node rs) "END" = false /\ iteration rs < max_iterations.
Proof.
  unfold loop_cond. intros [H1 H2]%andb_true_iff.
  apply negb_true_iff in H1. apply Z.ltb_lt in H2. auto.
Qed.

(** Any fuel above what the counter leaves gives the same result. *)
Lemma while_loop_fuel state max_iterations n :
  forall m rs,
    (Z.to_nat (max_iterations - iteration rs) <= n)%nat ->
    (Z.to_nat (max_iterations - iteration rs) <= m)%nat ->
    while_loop' n state max_iterations rs = while_loop' m state max_iterations rs.
Proof.
  induction n as [|n IH]; intros m rs Hn Hm.
  - destruct m; simpl; [reflexivity|].
    destruct (loop_cond max_iterations rs) eqn:Hc; [|reflexivity].
    apply loop_cond_true in Hc. lia.
  - destruct m; simpl.
    + destruct (loop_cond max_iterations rs) eqn:Hc; [|reflexivity].
      apply loop_cond_true in Hc. lia.
    + destruct (loop_cond max_iterations rs) eqn:Hc; [|reflexivity].
      apply loop_cond_true in Hc.
      destruct (loop_body' state rs) as [rs'| |] eqn:Hb; try reflexivity.
      apply loop_body_continue_iteration in Hb.
      apply IH; lia.
Qed.

(** The loop equation of [run_from']. *)
Lemma run_from_unfold state max_iterations rs :
  run_from' state max_iterations rs =
    if loop_cond max_iterations rs then
      match loop_body' state rs with
      | Continue rs' => run_from' state max_iterations rs'
      | Break rs' => Some (rs_heap rs', Returns rs')
      | Throw h e => Some (h, Raises e)
      end
    else Some (rs_heap rs, Returns rs).
Proof.
  unfold run_from.
  destruct (loop_cond max_iterations rs) eqn:Hc.
  - pose proof (loop_cond_true _ _ Hc) as [_ Hlt].
    destruct (Z.to_nat (max_iterations - iteration rs)) as [|n] eqn:Hn; [lia|].
    simpl. rewrite Hc.
    destruct (loop_body' state rs) as [rs'| |] eqn:Hb; try reflexivity.
    apply loop_body_continue_iteration in Hb.
    apply while_loop_fuel; lia.
  - destruct (Z.to_nat (max_iterations - iteration rs)); simpl; rewrite Hc; reflexivity.
Qed.

Lemma run_from_stop state max_iterations rs :
  loop_cond max_iterations rs = false ->
  run_from' state max_iterations rs = Some (rs_heap rs, Returns rs).
Proof. intros H. rewrite run_from_unfold, H. reflexivity. Qed.

Lemma run_from_continue state max_iterations rs rs' :
  loop_cond max_iterations rs = true ->
  loop_body' state rs = Continue rs' ->
  run_from' state max_iterations rs = run_from' state max_iterations rs'.
Proof. intros H1 H2. rewrite run_from_unfold, H1, H2. reflexivity. Qed.

Lemma run_from_break state max_iterations rs rs' :
  loop_cond max_iterations rs = true ->
  loop_body' state rs = Break rs' ->
  run_from' state max_iterations rs = Some (rs_heap rs', Returns rs').
Proof. intros H1 H2. rewrite run_from_unfold, H1, H2. reflexivity. Qed.

Lemma reaches_run_from state max_iterations rs rs' :
  reaches' state max_iterations rs rs' ->
  run_from' state max_iterations rs = run_from' state max_iterations rs'.
Proof.
  induction 1 as [|rs rs' rs'' Hc Hb _ IH]; [reflexivity|].
  rewrite <- IH. by apply run_from_continue.
Qed.

(** The loop always ends, and it ends with a counter that it has advanced
    one by one and not beyond [max_iterations]. *)
Lemma run_from_total state max_iterations rs :
  exists h r, run_from' state max_iterations rs = Some (h, r) /\
    forall rs', r = Returns rs' ->
      iteration rs <= iteration rs' <= Z.max (iteration rs) max_iterations.
Proof.
  remember (Z.to_nat (max_iterations - iteration rs)) as n eqn:Hn.
  revert rs Hn. induction n as [|n IH]; intros rs Hn.
  - rewrite run_from_stop.
    + eexists _, _. split; [reflexivity|]. intros ? [= <-]. lia.
    + unfold loop_cond. replace (Z.ltb (iteration rs) max_iterations) with false
        by (symmetry; apply Z.ltb_ge; lia).
      apply andb_false_r.
  - rewrite run_from_unfold.
    destruct (loop_cond max_iterations rs) eqn:Hc.
    + apply loop_cond_true in Hc as [_ Hlt].
      destruct (loop_body' state rs) as [rs'|rs'|h e] eqn:Hb.
      * pose proof (loop_body_continue_iteration _ _ _ Hb) as Hi.
        destruct (IH rs') as (h & r & Hr & Hbound); [lia|].
        exists h, r. split; [exact Hr|].
        intros rs'' ->. specialize (Hbound _ eq_refl). lia.
      * apply loop_body_break_iteration in Hb.
        eexists _, _. split; [reflexivity|]. intros ? [= <-]. lia.
      * eexists _, _. split; [reflexivity|]. intros ? [=].
    + eexists _, _. split; [reflexivity|]. intros ? [= <-]. lia.
Qed.

(** [run_workflow'] in terms of [run_from']. *)
Lemma run_workflow_run_from h initial_state max_iterations :
  run_workflow' h initial_state max_iterations =
    match run_from' (fresh (dom h)) max_iterations
            (initial_run_state h initial_state (fresh (dom h))) with
    | None => None
    | Some (h', Raises e) => Some (h', Raises e)
    | Some (h', Returns rs) =>
        Some (h', Returns (fresh (dom h), finish now max_iterations rs))
    end.
Proof.
  unfold run_workflow, run_from. simpl.
  rewrite Z.sub_0_r. reflexivity.
Qed.

(** Only the dictionary at [state] is ever written. *)
Lemma execute_node_frame h state i node timestamp l :
  l <> state ->
  exec_heap (execute_node' h state i node timestamp) !! l = h !! l.
Proof.
  intros Hl. unfold execute_node.
  repeat case_match; simpl; rewrite ?lookup_insert_ne by done; reflexivity.
Qed.

Lemma loop_body_frame state rs l :
  l <> state -> step_heap (loop_body' state rs) !! l = rs_heap rs !! l.
Proof.
  intros Hl. unfold loop_body.
  destruct (str_is (current_node rs) "START").
  - by destruct (truthy (edges !! "START")).
  - pose proof (execute_node_frame (rs_heap rs) state (iteration rs + 1)
                  (current_node rs) (now (clock_reads rs)) l Hl) as Hf.
    destruct (execute_node' _ _ _ _ _) as [h' entry|h' entry|h' e]; simpl in *;
      [|done..].
    by destruct (route' _ _).
Qed.

Lemma while_loop_frame state max_iterations l n :
  l <> state ->
  forall rs h' r,
    while_loop' n state max_iterations rs = Some (h', r) ->
    h' !! l = rs_heap rs !! l.
Proof.
  intros Hl. induction n as [|n IH]; intros rs h' r; simpl.
  - destruct (loop_cond max_iterations rs); [done|]. by intros [= <- _].
  - destruct (loop_cond max_iterations rs); [|by intros [= <- _]].
    pose proof (loop_body_frame state rs l Hl) as Hf.
    destruct (loop_body' state rs) as [rs'|rs'|h e]; simpl in Hf.
    + intros H%IH. congruence.
    + by intros [= <- _].
    + by intros [= <- _].
Qed.

End Loop.

(** ** The condition evaluator *)

(** C6. The condition evaluator returns false whenever the referenced
    field is absent from the state, whatever the operator and the literal:
    no comparison is made, so nothing is raised either. *)
Theorem absent_field_evaluates_false (state : gmap string pyval)
    (field operator : option string) (value : pyval) :
  (forall f, field = Some f -> state !! f = None) ->
  _evaluate_condition state field operator value = Returns false.
Proof.
  intros Habsent. unfold _evaluate_condition.
  destruct field as [f|]; simpl; [|reflexivity].
  rewrite (Habsent f eq_refl). reflexivity.
Qed.

Lemma absent_field_evaluates_false_witness :
  _evaluate_condition {[ "score" := PStr "high" ]} (Some "quality_score")
    (Some "<") (PInt 80) = Returns false.
Proof.
  apply absent_field_evaluates_false.
  intros f [= <-]. reflexivity.
Defined.

(** ** Runs *)

Section Runs.
Variable tools : gmap string tool.
Variable now : nat -> string.
Variable nodes : gmap string node_def.
Variable edges : gmap string string.
Variable conditional_edges : gmap string (list (string * condition_def)).

#[local] Abbreviation loop_body' := (loop_body tools now nodes edges conditional_edges).
#[local] Abbreviation while_loop' := (while_loop tools now nodes edges conditional_edges).
#[local] Abbreviation run_from' := (run_from tools now nodes edges conditional_edges).
#[local] Abbreviation run_workflow' := (run_workflow tools now nodes edges conditional_edges).
#[local] Abbreviation reaches' := (reaches tools now nodes edges conditional_edges).

(** C10. [run_workflow] never mutates the caller's [initial_state]
    dictionary: however the run ends, the heap it leaves holds at
    [initial_state] exactly the entries it held before, every write having
    gone to the copy made on entry. *)
Theorem initial_state_not_mutated (h : heap) (initial_state : loc) (max_iterations : Z) :
  initial_state ∈ dom h ->
  exists h' r,
    run_workflow' h initial_state max_iterations = Some (h', r) /\
    h' !! initial_state = h !! initial_state.
Proof.
  intros Hdom.
  assert (initial_state <> fresh (dom h)) as Hne.
  { intros ->. by apply (is_fresh (dom h)). }
  rewrite run_workflow_run_from.
  destruct (run_from_total tools now nodes edges conditional_edges
              (fresh (dom h)) max_iterations
              (initial_run_state h initial_state (fresh (dom h))))
    as (h' & r & Hr & _).
  rewrite Hr.
  apply (while_loop_frame _ _ _ _ _ _ _ initial_state _ Hne) in Hr.
  simpl in Hr. rewrite lookup_insert_ne in Hr by done.
  destruct r; eauto.
Qed.

(** C7 (amended). A run whose [edges] has no entry for [START] ends in its
    first iteration and returns a dictionary with the entries of the
    initial state; when [max_iterations] is at least 2 the log is empty. *)
Theorem missing_start_edge_is_noop (h : heap) (initial_state : loc) (max_iterations : Z) :
  edges !! "START" = None ->
  1 < max_iterations ->
  let state := fresh (dom h) in
  let h' := <[state := h !!! initial_state]> h in
  run_workflow' h initial_state max_iterations = Some (h', Returns (state, [])) /\
  h' !!! state = h !!! initial_state.
Proof.
  intros Hstart Hmax state h'. split.
  - rewrite run_workflow_run_from.
    rewrite (run_from_break _ _ _ _ _ _ _ _ (RunState h' None 1 [] 1)).
    + unfold finish; simpl.
      replace (Z.leb max_iterations 1) with false
        by (symmetry; apply Z.leb_gt; lia).
      reflexivity.
    + unfold loop_cond; simpl. apply Z.ltb_lt. lia.
    + unfold loop_body; simpl. rewrite Hstart. reflexivity.
  - subst h'. by rewrite lookup_total_insert_eq.
Qed.

Lemma scan_conditions_first_true (state : gmap string pyval)
    (pre post : list (string * condition_def)) (c : string * condition_def) :
  Forall (fun c' => condition_holds state c' = Returns false) pre ->
  condition_holds state c = Returns true ->
  scan_conditions state (pre ++ c :: post) = Returns (cd_target c.2).
Proof.
  intros Hpre Hc. induction Hpre as [|[key cd] pre Hfalse _ IH]; simpl.
  - destruct c as [key cd]. unfold condition_holds in Hc; simpl in Hc.
    by rewrite Hc.
  - unfold condition_holds in Hfalse; simpl in Hfalse. by rewrite Hfalse.
Qed.

Lemma scan_conditions_none_true (state : gmap string pyval)
    (conditions : list (string * condition_def)) :
  Forall (fun c => condition_holds state c = Returns false) conditions ->
  scan_conditions state conditions = Returns None.
Proof.
  induction 1 as [|[key cd] rest Hfalse _ IH]; simpl; [reflexivity|].
  unfold condition_holds in Hfalse; simpl in Hfalse. by rewrite Hfalse.
Qed.

(** C1. After a node has been executed, routing evaluates the conditions
    of the node's group in their declared order and moves to the target of
    the first one that is true, whatever the conditions declared after it
    would give; when no condition of the group is true, or the node has no
    group, it moves along the node's simple edge, and to [END] when there
    is no simple edge either. *)
Theorem first_true_condition_selects_target (state : loc) (rs : run_state)
    (h : heap) (entry : log_entry) :
  str_is (current_node rs) "START" = false ->
  execute_node tools nodes (rs_heap rs) state (iteration rs + 1)
    (current_node rs) (now (clock_reads rs)) = Executed h entry ->
  let moves_to next_node :=
    loop_body' state rs =
      Continue (RunState h (Some next_node) (iteration rs + 1)
                  (execution_log rs ++ [entry]) (S (clock_reads rs))) in
  let simple_edge :=
    match current_node rs ≫= (edges !!.) with
    | Some next_node => next_node
    | None => "END"
    end in
  (forall pre c post target,
      current_node rs ≫= (conditional_edges !!.) = Some (pre ++ c :: post) ->
      Forall (fun c' => condition_holds (h !!! state) c' = Returns false) pre ->
      condition_holds (h !!! state) c = Returns true ->
      cd_target c.2 = Some target ->
      moves_to target) /\
  (forall conditions,
      current_node rs ≫= (conditional_edges !!.) = Some conditions ->
      Forall (fun c => condition_holds (h !!! state) c = Returns false) conditions ->
      moves_to simple_edge) /\
  (current_node rs ≫= (conditional_edges !!.) = None -> moves_to simple_edge).
Proof.
  intros Hstart Hexec moves_to simple_edge. subst moves_to; simpl.
  unfold loop_body. rewrite Hstart, Hexec. unfold route.
  repeat split.
  - intros pre c post target Hgroup Hpre Hc Htarget.
    rewrite Hgroup, (scan_conditions_first_true _ _ _ _ Hpre Hc), Htarget.
    reflexivity.
  - intros conditions Hgroup Hnone.
    rewrite Hgroup, (scan_conditions_none_true _ _ Hnone).
    subst simple_edge. by destruct (current_node rs ≫= (edges !!.)).
  - intros Hgroup. rewrite Hgroup.
    subst simple_edge. by destruct (current_node rs ≫= (edges !!.)).
Qed.

(** C4 (amended). A visited node that is declared but whose handler name
    is absent, empty or not registered gets a log entry with status
    [skipped] and a reason; a visited node that is not declared gets a log
    entry with its iteration, node and timestamp and neither status nor
    reason.  In both cases the state is left as it is and the run goes on
    with routing. *)
Theorem unexecuted_node_is_logged_and_routed (state : loc) (rs : run_state) :
  str_is (current_node rs) "START" = false ->
  let routed_with entry :=
    loop_body' state rs =
      match route edges conditional_edges (rs_heap rs !!! state) (current_node rs) with
      | Returns next_node =>
          Continue (RunState (rs_heap rs) (Some next_node) (iteration rs + 1)
                      (execution_log rs ++ [entry]) (S (clock_reads rs)))
      | Raises e => Throw (rs_heap rs) e
      end in
  (forall node_def,
      current_node rs ≫= (nodes !!.) = Some node_def ->
      truthy (nd_function node_def) = false \/
        nd_function node_def ≫= (tools !!.) = None ->
      exists entry,
        routed_with entry /\
        status_of entry = Some "skipped" /\
        reason_of entry = Some "No function defined" /\
        node_of entry = current_node rs /\
        iteration_of entry = Some (iteration rs + 1)) /\
  (current_node rs ≫= (nodes !!.) = None ->
      exists entry,
        routed_with entry /\
        status_of entry = None /\
        reason_of entry = None /\
        node_of entry = current_node rs /\
        iteration_of entry = Some (iteration rs + 1)).
Proof.
  intros Hstart routed_with. subst routed_with; simpl.
  unfold loop_body. rewrite Hstart. split.
  - intros node_def Hnode Hfunc.
    exists (StepEntry (iteration rs + 1) (current_node rs) (now (clock_reads rs))
              (Skipped "No function defined")).
    unfold execute_node. rewrite Hnode.
    replace (if truthy (nd_function node_def)
             then nd_function node_def ≫= (tools !!.) else None)
      with (@None tool)
      by (destruct Hfunc as [-> | ->]; [|destruct (truthy _)]; reflexivity).
    repeat split.
  - intros Hnode.
    exists (StepEntry (iteration rs + 1) (current_node rs) (now (clock_reads rs))
              NoStatus).
    unfold execute_node. rewrite Hnode.
    repeat split.
Qed.

Lemma execute_node_entry (h h' : heap) (state : loc) (i : Z)
    (node : option string) (timestamp : string) (entry : log_entry) :
  execute_node tools nodes h state i node timestamp = Executed h' entry \/
  execute_node tools nodes h state i node timestamp = Failed h' entry ->
  is_warning entry = false.
Proof.
  unfold execute_node. intros [H|H]; repeat case_match; by simplify_eq.
Qed.

(** An iteration appends step entries only. *)
Lemma loop_body_log (state : loc) (rs rs' : run_state) :
  loop_body' state rs = Continue rs' \/ loop_body' state rs = Break rs' ->
  Forall (fun entry => is_warning entry = false) (execution_log rs) ->
  Forall (fun entry => is_warning entry = false) (execution_log rs').
Proof.
  unfold loop_body. intros Hbody Hlog.
  destruct (str_is (current_node rs) "START").
  - destruct (truthy (edges !! "START")); destruct Hbody; by simplify_eq.
  - destruct (execute_node _ _ _ _ _ _ _) as [h entry|h entry|h e] eqn:Hexec.
    + assert (is_warning entry = false) by (eapply execute_node_entry; eauto).
      destruct (route _ _ _ _); destruct Hbody; simplify_eq; simpl.
      apply Forall_app; auto.
    + assert (is_warning entry = false) by (eapply execute_node_entry; eauto).
      destruct Hbody; simplify_eq; simpl. apply Forall_app; auto.
    + destruct Hbody; discriminate.
Qed.

Lemma while_loop_log (state : loc) (max_iterations : Z) (n : nat) :
  forall rs h' rs',
    Forall (fun entry => is_warning entry = false) (execution_log rs) ->
    while_loop' n state max_iterations rs = Some (h', Returns rs') ->
    Forall (fun entry => is_warning entry = false) (execution_log rs').
Proof.
  induction n as [|n IH]; intros rs h' rs' Hlog; simpl.
  - destruct (loop_cond max_iterations rs); [done|]. by intros [= _ <-].
  - destruct (loop_cond max_iterations rs); [|by intros [= _ <-]].
    destruct (loop_body' state rs) as [rs1|rs1|h e] eqn:Hbody.
    + apply IH. eapply loop_body_log; eauto.
    + intros [= _ <-]. eapply loop_body_log; eauto.
    + discriminate.
Qed.

(** C3 (amended). The loop puts no warning entry in the log, and the
    ["Max iterations reached"] entry is appended after it if and only if
    the iteration counter has reached [max_iterations] when the loop ends,
    whatever ended the loop. *)
Theorem warning_iff_counter_reached_cap (h : heap) (initial_state : loc)
    (max_iterations : Z) :
  let state := fresh (dom h) in
  exists h' r,
    while_loop' (Z.to_nat max_iterations) state max_iterations
      (initial_run_state h initial_state state) = Some (h', r) /\
    match r with
    | Raises e => run_workflow' h initial_state max_iterations = Some (h', Raises e)
    | Returns rs =>
        Forall (fun entry => is_warning entry = false) (execution_log rs) /\
        run_workflow' h initial_state max_iterations =
          Some (h', Returns (state,
            if decide (max_iterations <= iteration rs)
            then execution_log rs ++
                   [WarningEntry "Max iterations reached" (now (clock_reads rs))]
            else execution_log rs))
    end.
Proof.
  intros state.
  destruct (run_from_total tools now nodes edges conditional_edges state
              max_iterations (initial_run_state h initial_state state))
    as (h' & r & Hr & _).
  exists h', r.
  assert (while_loop' (Z.to_nat max_iterations) state max_iterations
            (initial_run_state h initial_state state) = Some (h', r)) as Hloop.
  { rewrite <- Hr. unfold run_from; simpl. by rewrite Z.sub_0_r. }
  split; [exact Hloop|].
  unfold run_workflow. fold state. rewrite Hloop.
  destruct r as [rs|e]; [|reflexivity].
  split.
  - eapply while_loop_log; [|exact Hloop]. constructor.
  - unfold finish. destruct (decide (max_iterations <= iteration rs)) as [Hle|Hgt].
    + apply Z.leb_le in Hle. by rewrite Hle.
    + apply Z.leb_nle in Hgt. by rewrite Hgt.
Qed.

(** C2 (amended). When the run comes to a node [A] whose handler raises an
    [Exception], an error entry for [A] is appended to the log, the loop
    stops without routing, and the run returns: the state as the handler
    left it and the log made of the entries logged before [A], the error
    entry and, only when [A] ran in iteration [max_iterations], the
    max-iterations warning.  So no entry of a later node exists, and the
    error entry is the final one when [A] ran before iteration
    [max_iterations]. *)
Theorem handler_exception_ends_run (h : heap) (initial_state : loc)
    (max_iterations : Z) (rs : run_state) (A name : string)
    (node_def : node_def) (f : tool) (after : gmap string pyval) (e : pyexc) :
  let state := fresh (dom h) in
  reaches' state max_iterations (initial_run_state h initial_state state) rs ->
  loop_cond max_iterations rs = true ->
  current_node rs = Some A ->
  A <> "START" ->
  nodes !! A = Some node_def ->
  nd_function node_def = Some name ->
  name <> "" ->
  tools !! name = Some f ->
  f (rs_heap rs !!! state) = (after, Raises e) ->
  exc_is_Exception e = true ->
  let entry :=
    StepEntry (iteration rs + 1) (Some A) (now (clock_reads rs)) (Error (exc_str e)) in
  let log :=
    if decide (iteration rs + 1 < max_iterations)
    then execution_log rs ++ [entry]
    else execution_log rs ++ [entry] ++
           [WarningEntry "Max iterations reached" (now (S (clock_reads rs)))] in
  run_workflow' h initial_state max_iterations =
    Some (<[state := after]> (rs_heap rs), Returns (state, log)) /\
  status_of entry = Some "error" /\
  node_of entry = Some A /\
  (iteration rs + 1 < max_iterations -> last log = Some entry).
Proof.
  intros state Hreach Hcond Hnode HA Hdecl Hfunc Hname Htool Hcall Hexc entry log.
  assert (loop_body' state rs =
            Break (RunState (<[state := after]> (rs_heap rs)) (Some A)
                     (iteration rs + 1) (execution_log rs ++ [entry])
                     (S (clock_reads rs)))) as Hbody.
  { unfold loop_body, execute_node, str_is, truthy. rewrite Hnode.
    replace (String.eqb A "START") with false
      by (symmetry; by apply String.eqb_neq).
    change (Some A ≫= (nodes !!.)) with (nodes !! A).
    rewrite Hdecl, Hfunc.
    replace (String.eqb name "") with false
      by (symmetry; by apply String.eqb_neq).
    change (Some name ≫= (tools !!.)) with (tools !! name).
    cbn [negb]. rewrite Htool, Hcall, Hexc. reflexivity. }
  repeat split.
  - rewrite run_workflow_run_from. fold state.
    rewrite (reaches_run_from _ _ _ _ _ _ _ _ _ Hreach).
    rewrite (run_from_break _ _ _ _ _ _ _ _ _ Hcond Hbody); simpl.
    unfold finish, log; simpl.
    destruct (decide (iteration rs + 1 < max_iterations)) as [Hlt|Hge].
    + replace (Z.leb max_iterations (iteration rs + 1)) with false
        by (symmetry; apply Z.leb_gt; lia).
      reflexivity.
    + replace (Z.leb max_iterations (iteration rs + 1)) with true
        by (symmetry; apply Z.leb_le; lia).
      by rewrite <- app_assoc.
  - intros Hlt. unfold log. rewrite decide_True by done. apply last_snoc.
Qed.

(** *** Runs that raise nothing *)





End Runs.

(** ** Termination *)

(** C9. [run_workflow] always terminates: the loop runs to its end within
    [max_iterations] iterations on every input, each iteration advances
    the iteration counter by one, and the counter never passes
    [max_iterations] (it stays 0 when [max_iterations] is not positive).
    With [max_iterations = 3] and the unconditional self-loop [A -> A] the
    run stops after 3 iterations, its log ends with the warning entry, and
    nothing is raised. *)
Theorem run_terminates_within_max_iterations :
  (forall tools now nodes edges conditional_edges h initial_state max_iterations,
      let state := fresh (dom h) in
      exists h' r,
        while_loop tools now nodes edges conditional_edges
          (Z.to_nat max_iterations) state max_iterations
          (initial_run_state h initial_state state) = Some (h', r) /\
        (forall rs, r = Returns rs -> 0 <= iteration rs <= Z.max 0 max_iterations) /\
        exists out,
          run_workflow tools now nodes edges conditional_edges
            h initial_state max_iterations = Some (h', out)) /\
  (forall tools now nodes edges conditional_edges state rs rs',
      loop_body tools now nodes edges conditional_edges state rs = Continue rs' \/
      loop_body tools now nodes edges conditional_edges state rs = Break rs' ->
      iteration rs' = iteration rs + 1) /\
  (forall now,
      let h := heap_of {[ "n" := PInt 0 ]} in
      let h' := <[1%nat := {[ "n" := PInt 0 ]}]> h in
      while_loop (example_tools "n") now self_loop_nodes self_loop_edges ∅
        3 1%nat 3 (initial_run_state h 0%nat 1%nat) =
        Some (h', Returns (RunState h' (Some "A") 3
                [StepEntry 2 (Some "A") (now 1%nat) (Success (PDict []));
                 StepEntry 3 (Some "A") (now 2%nat) (Success (PDict []))] 3)) /\
      run_workflow (example_tools "n") now self_loop_nodes self_loop_edges ∅
        h 0%nat 3 =
        Some (h', Returns (1%nat,
                [StepEntry 2 (Some "A") (now 1%nat) (Success (PDict []));
                 StepEntry 3 (Some "A") (now 2%nat) (Success (PDict []));
                 WarningEntry "Max iterations reached" (now 3%nat)]))).
Proof.
  split; [|split].
  - intros tools now nodes edges conditional_edges h initial_state max_iterations state.
    destruct (run_from_total tools now nodes edges conditional_edges state
                max_iterations (initial_run_state h initial_state state))
      as (h' & r & Hr & Hbound).
    unfold run_from in Hr; simpl in Hr. rewrite Z.sub_0_r in Hr.
    exists h', r. split; [exact Hr|]. split.
    + intros rs ->. specialize (Hbound rs eq_refl). simpl in Hbound. lia.
    + unfold run_workflow. fold state. rewrite Hr. destruct r; eauto.
  - intros tools now nodes edges conditional_edges state rs rs' [H|H].
    + eapply loop_body_continue_iteration; eauto.
    + eapply loop_body_break_iteration; eauto.
  - intros now h h'. split; vm_compute; reflexivity.
Qed.

(** ** Instances on concrete runs *)

(** The caller's dictionary is found as it was after the code-review run. *)
Lemma initial_state_not_mutated_witness :
  exists h' r,
    run_workflow main_tools tick_clock code_review_nodes code_review_edges
      code_review_conditional_edges (heap_of {[ "code" := PStr "x" ]}) 0%nat
      default_max_iterations = Some (h', r) /\
    h' !! 0%nat = heap_of {[ "code" := PStr "x" ]} !! 0%nat.
Proof.
  apply initial_state_not_mutated. vm_compute. reflexivity.
Defined.

(** No [START] edge and the default cap: an empty log. *)
Lemma missing_start_edge_is_noop_witness :
  let h := heap_of {[ "code" := PStr "x" ]} in
  let h' := <[fresh (dom h) := h !!! 0%nat]> h in
  run_workflow main_tools tick_clock code_review_nodes ∅ ∅ h 0%nat
    default_max_iterations = Some (h', Returns (fresh (dom h), [])) /\
  h' !!! fresh (dom h) = h !!! 0%nat.
Proof.
  apply missing_start_edge_is_noop.
  - reflexivity.
  - unfold default_max_iterations. lia.
Defined.

(** C7 (counterexample). With no [START] edge and [max_iterations = 1] the
    returned log is not empty: it holds the max-iterations warning. *)
Lemma missing_start_edge_cap_one_logs_warning :
  (∅ : gmap string string) !! "START" = None /\
  run_workflow main_tools tick_clock code_review_nodes ∅ ∅
    (heap_of {[ "code" := PStr "x" ]}) 0%nat 1 =
    Some (<[1%nat := {[ "code" := PStr "x" ]}]> (heap_of {[ "code" := PStr "x" ]}),
          Returns (1%nat, [WarningEntry "Max iterations reached" "1"])) /\
  ~ (exists h' state,
       run_workflow main_tools tick_clock code_review_nodes ∅ ∅
         (heap_of {[ "code" := PStr "x" ]}) 0%nat 1 =
         Some (h', Returns (state, []))).
Proof.
  split; [reflexivity|].
  assert (run_workflow main_tools tick_clock code_review_nodes ∅ ∅
            (heap_of {[ "code" := PStr "x" ]}) 0%nat 1 =
          Some (<[1%nat := {[ "code" := PStr "x" ]}]> (heap_of {[ "code" := PStr "x" ]}),
                Returns (1%nat, [WarningEntry "Max iterations reached" "1"]))) as Hrun
    by (vm_compute; reflexivity).
  split; [exact Hrun|].
  intros (h' & state & H). rewrite Hrun in H. discriminate.
Qed.

(** C3 (counterexample). [START -> A -> END] with [max_iterations = 2]:
    the loop ends because the current node is [END], in its second
    iteration, and the warning entry is appended all the same. *)
Lemma run_reaching_END_gets_warning :
  let h := heap_of {[ "n" := PInt 0 ]} in
  let h' := <[1%nat := {[ "n" := PInt 0 ]}]> h in
  while_loop (example_tools "n") tick_clock (single_nodes "noop") single_edges ∅
    2 1%nat 2 (initial_run_state h 0%nat 1%nat) =
    Some (h', Returns (RunState h' (Some "END") 2
            [StepEntry 2 (Some "A") "1" (Success (PDict []))] 2)) /\
  run_workflow (example_tools "n") tick_clock (single_nodes "noop") single_edges ∅
    h 0%nat 2 =
    Some (h', Returns (1%nat,
            [StepEntry 2 (Some "A") "1" (Success (PDict []));
             WarningEntry "Max iterations reached" "2"])).
Proof.
  split; vm_compute; reflexivity.
Qed.

(** C2 (counterexample). [START -> A] with [max_iterations = 2] and a
    handler of [A] that raises: the final entry of the log is the warning,
    which has no status, and not the error entry. *)
Lemma error_in_last_iteration_is_followed_by_warning :
  let h := heap_of {[ "n" := PInt 0 ]} in
  exists h' log,
    run_workflow (example_tools "n") tick_clock (single_nodes "failing")
      single_edges ∅ h 0%nat 2 = Some (h', Returns (1%nat, log)) /\
    log = [StepEntry 2 (Some "A") "1" (Error "boom");
           WarningEntry "Max iterations reached" "2"] /\
    (last log ≫= status_of) <> Some "error".
Proof.
  eexists _, _. split; [vm_compute; reflexivity|]. split; [reflexivity|].
  discriminate.
Qed.

(** C4 (counterexample). The code-review workflow as [app/main.py] runs
    it: [check_quality] is not declared, it is visited, and its log entry
    has no status and no reason. *)
Lemma undeclared_check_quality_has_no_status :
  code_review_nodes !! "check_quality" = None /\
  exists h' log entry,
    run_workflow main_tools tick_clock code_review_nodes code_review_edges
      code_review_conditional_edges (heap_of {[ "code" := PStr "x" ]}) 0%nat
      default_max_iterations = Some (h', Returns (1%nat, log)) /\
    filter (fun e => bool_decide (node_of e = Some "check_quality")) log = [entry] /\
    entry = StepEntry 6 (Some "check_quality") "5" NoStatus /\
    status_of entry = None /\
    reason_of entry = None.
Proof.
  split; [vm_compute; reflexivity|].
  eexists _, _, _. split; [vm_compute; reflexivity|].
  split; [vm_compute; reflexivity|]. repeat split.
Qed.


(** A handler that raises past [except Exception] is not caught either. *)
Lemma non_Exception_escapes :
  let h := heap_of {[ "n" := PInt 0 ]} in
  run_workflow (example_tools "n") tick_clock (single_nodes "exiting") single_edges
    ∅ h 0%nat default_max_iterations =
    Some (<[1%nat := {[ "n" := PInt 0 ]}]> h, Raises (PyExc false "exit")).
Proof.
  vm_compute. reflexivity.
Qed.

(** With [score = 12] both conditions of node [A] are true; the run moves
    to [B], the target of the one declared first. *)
Lemma first_true_condition_selects_target_witness :
  let s : gmap string pyval := {[ "score" := PInt 12 ]} in
  let h : heap := <[1%nat := s]> (heap_of s) in
  let rs := RunState h (Some "A") 1 [] 1 in
  condition_holds s
    ("large", ConditionDef (Some "score") (Some ">=") (PInt 10) (Some "C")) =
    Returns true /\
  loop_body (example_tools "n") tick_clock (single_nodes "noop") single_edges
    overlapping_conditions 1%nat rs =
    Continue (RunState h (Some "B") 2
                [StepEntry 2 (Some "A") "1" (Success (PDict []))] 2).
Proof.
  intros s h rs. split; [reflexivity|].
  refine (proj1 (first_true_condition_selects_target (example_tools "n") tick_clock
                   (single_nodes "noop") single_edges overlapping_conditions
                   1%nat rs h (StepEntry 2 (Some "A") "1" (Success (PDict []))) _ _)
            [] ("positive", ConditionDef (Some "score") (Some ">") (PInt 0) (Some "B"))
            [("large", ConditionDef (Some "score") (Some ">=") (PInt 10) (Some "C"))]
            "B" _ _ _ _).
  - reflexivity.
  - vm_compute. reflexivity.
  - vm_compute. reflexivity.
  - constructor.
  - vm_compute. reflexivity.
  - reflexivity.
Defined.

(** A declared node whose handler is not registered: the first node of
    the code-review workflow under the empty registry of [app/main.py]. *)
Lemma unexecuted_node_is_logged_and_routed_witness :
  let h : heap := <[1%nat := {[ "code" := PStr "x" ]}]> (heap_of {[ "code" := PStr "x" ]}) in
  let rs := RunState h (Some "extract_functions") 1 [] 1 in
  exists entry,
    loop_body main_tools tick_clock code_review_nodes code_review_edges
      code_review_conditional_edges 1%nat rs =
      Continue (RunState h (Some "check_complexity") 2 [entry] 2) /\
    status_of entry = Some "skipped" /\
    reason_of entry = Some "No function defined".
Proof.
  intros h rs.
  destruct (proj1 (unexecuted_node_is_logged_and_routed main_tools tick_clock
                     code_review_nodes code_review_edges
                     code_review_conditional_edges 1%nat rs eq_refl)
              (NodeDef (Some "extract_functions")
                 (Some "Extract function definitions from code"))
              ltac:(vm_compute; reflexivity)
              ltac:(right; vm_compute; reflexivity))
    as (entry & Hbody & Hstatus & Hreason & _).
  exists entry. split; [|split; assumption].
  rewrite Hbody. vm_compute. reflexivity.
Defined.

(** The handler of [A] raises in iteration 2 of a run capped at 10. *)
Lemma handler_exception_ends_run_witness :
  let s : gmap string pyval := {[ "n" := PInt 0 ]} in
  let entry := StepEntry 2 (Some "A") "1" (Error "boom") in
  run_workflow (example_tools "n") tick_clock (single_nodes "failing") single_edges
    ∅ (heap_of s) 0%nat default_max_iterations =
    Some (<[1%nat := s]> (<[1%nat := s]> (heap_of s)), Returns (1%nat, [entry])) /\
  status_of entry = Some "error" /\
  node_of entry = Some "A" /\
  last [entry] = Some entry.
Proof.
  intros s entry.
  pose proof (handler_exception_ends_run (example_tools "n") tick_clock
                (single_nodes "failing") single_edges ∅ (heap_of s) 0%nat
                default_max_iterations
                (RunState (<[1%nat := s]> (heap_of s)) (Some "A") 1 [] 1)
                "A" "failing" (NodeDef (Some "failing") None) failing s
                (PyExc true "boom")) as H.
  simpl in H.
  destruct H as (Hrun & Hstatus & Hnode & Hlast).
  - eapply reaches_next; [| |apply reaches_here]; vm_compute; reflexivity.
  - vm_compute. reflexivity.
  - reflexivity.
  - discriminate.
  - vm_compute. reflexivity.
  - reflexivity.
  - discriminate.
  - vm_compute. reflexivity.
  - vm_compute. reflexivity.
  - reflexivity.
  - split; [|split; [|split]].
    + rewrite Hrun. vm_compute. reflexivity.
    + exact Hstatus.
    + exact Hnode.
    + reflexivity.
Defined.



(** ** The linear graph *)

Lemma example_tools_increment (field : string) :
  example_tools field !! "increment" = Some (increment field).
Proof. reflexivity. Qed.

(** One iteration on a node of the linear graph whose handler increments
    [field], in a state where [field] is the integer [n]. *)
Lemma increment_step (field : string) (now : nat -> string) (h : heap)
    (state : loc) (node next_node : string) (s : gmap string pyval)
    (n i : Z) (log : list log_entry) (reads : nat) :
  String.eqb node "START" = false ->
  linear_nodes !! node = Some (NodeDef (Some "increment") None) ->
  linear_edges !! node = Some next_node ->
  h !! state = Some s ->
  s !! field = Some (PInt n) ->
  loop_body (example_tools field) now linear_nodes linear_edges ∅ state
    (RunState h (Some node) i log reads) =
    Continue (RunState (<[state := <[field := PInt (n + 1)]> s]> h)
                (Some next_node) (i + 1)
                (log ++ [StepEntry (i + 1) (Some node) (now reads)
                           (Success (PDict [(field, PInt (n + 1))]))])
                (S reads)).
Proof.
  intros Hstart Hnode Hedge Hs Hfield.
  unfold loop_body, execute_node, route; simpl.
  rewrite Hstart, Hnode; simpl.
  rewrite example_tools_increment.
  unfold increment, pure_tool.
  rewrite (lookup_total_correct h state s Hs), Hfield; simpl.
  rewrite Hedge, lookup_empty; simpl.
  rewrite insert_insert_eq. reflexivity.
Qed.

(** C8. On the linear graph [START -> A -> B -> END] whose two handlers
    increment [field] by 1, a run from the initial state [{field: 0}] with
    the default [max_iterations] returns a state in which [field] is 2 and
    a log of exactly two entries, both with status [success]. *)
Theorem linear_graph_increments_twice (field : string) (now : nat -> string)
    (h : heap) (initial_state : loc) :
  h !! initial_state = Some {[ field := PInt 0 ]} ->
  exists h' state log,
    run_workflow (example_tools field) now linear_nodes linear_edges ∅
      h initial_state default_max_iterations = Some (h', Returns (state, log)) /\
    (h' !!! state) !! field = Some (PInt 2) /\
    log = [StepEntry 2 (Some "A") (now 1%nat) (Success (PDict [(field, PInt 1)]));
           StepEntry 3 (Some "B") (now 2%nat) (Success (PDict [(field, PInt 2)]))] /\
    status_of <$> log = [Some "success"; Some "success"].
Proof.
  intros Hinit.
  set (state := fresh (dom h)).
  set (s0 := {[ field := PInt 0 ]} : gmap string pyval).
  set (h0 := <[state := s0]> h).
  set (h1 := <[state := <[field := PInt (0 + 1)]> s0]> h0).
  set (h2 := <[state := <[field := PInt (1 + 1)]> (<[field := PInt (0 + 1)]> s0)]> h1).
  exists h2, state. eexists. split; [|split; [|split; reflexivity]].
  - rewrite run_workflow_run_from. fold state.
    unfold initial_run_state. rewrite (lookup_total_correct _ _ _ Hinit).
    fold s0 h0.
    rewrite (run_from_continue _ _ _ _ _ _ _ _ (RunState h0 (Some "A") 1 [] 1))
      by reflexivity.
    erewrite run_from_continue;
      [|reflexivity
       |apply (increment_step field now h0 state "A" "B" s0 0);
          [reflexivity..|apply lookup_insert_eq|apply lookup_singleton_eq]].
    erewrite run_from_continue;
      [|reflexivity
       |apply (increment_step field now h1 state "B" "END"
                 (<[field := PInt (0 + 1)]> s0) 1);
          [reflexivity..|apply lookup_insert_eq|apply lookup_insert_eq]].
    rewrite run_from_stop by reflexivity.
    reflexivity.
  - subst h2. rewrite lookup_total_insert_eq. apply lookup_insert_eq.
Qed.

Lemma linear_graph_increments_twice_witness :
  exists h' state log,
    run_workflow (example_tools "count") tick_clock linear_nodes linear_edges ∅
      (heap_of {[ "count" := PInt 0 ]}) 0%nat default_max_iterations =
      Some (h', Returns (state, log)) /\
    (h' !!! state) !! "count" = Some (PInt 2) /\
    log = [StepEntry 2 (Some "A") "1" (Success (PDict [("count", PInt 1)]));
           StepEntry 3 (Some "B") "2" (Success (PDict [("count", PInt 2)]))] /\
    status_of <$> log = [Some "success"; Some "success"].
Proof.
  apply (linear_graph_increments_twice "count" tick_clock
           (heap_of {[ "count" := PInt 0 ]}) 0%nat).
  reflexivity.
Defined.

(** * Further properties of the engine *)

(** ** The condition evaluator *)

(** X6. An operator outside [>=], [>], [<=], [<], [==], [!=] (or no
    operator at all) makes the condition false without comparing anything:
    nothing is raised, whatever the state value and the literal are. *)
Theorem unsupported_operator_evaluates_false (state : gmap string pyval)
    (field operator : option string) (value : pyval) :
  (forall op, operator = Some op ->
     op <> ">=" /\ op <> ">" /\ op <> "<=" /\ op <> "<" /\ op <> "==" /\ op <> "!=") ->
  _evaluate_condition state field operator value = Returns false.
Proof.
  intros Hop. unfold _evaluate_condition.
  destruct (field ≫= (state !!.)); [|reflexivity].
  destruct operator as [op|]; [|reflexivity].
  destruct (Hop op eq_refl) as (H1 & H2 & H3 & H4 & H5 & H6).
  unfold str_is.
  rewrite (proj2 (String.eqb_neq _ _) H1), (proj2 (String.eqb_neq _ _) H2),
    (proj2 (String.eqb_neq _ _) H3), (proj2 (String.eqb_neq _ _) H4),
    (proj2 (String.eqb_neq _ _) H5), (proj2 (String.eqb_neq _ _) H6).
  reflexivity.
Qed.

Lemma unsupported_operator_evaluates_false_witness :
  _evaluate_condition {[ "score" := PStr "high" ]} (Some "score") (Some "=>")
    (PInt 80) = Returns false.
Proof.
  apply unsupported_operator_evaluates_false.
  intros op [= <-]. repeat split; discriminate.
Defined.



(** X8. For a state value and a literal that are [None], booleans,
    integers, strings, lists or dictionaries (so no floating-point number,
    here or nested), on a field that is present, [<] and [>=] are
    complementary, and so are [>] and [<=]: either all four raise (the two
    values are not ordered), or [>=] returns the negation of [<] and [<=]
    the negation of [>], and [<] and [>] are not both true. *)
Theorem ordering_operators_complementary (state : gmap string pyval)
    (field : string) (x value : pyval) :
  state !! field = Some x ->
  let eval op := _evaluate_condition state (Some field) (Some op) value in
  (exists e1 e2 e3 e4, eval "<" = Raises e1 /\ eval ">=" = Raises e2 /\
                       eval ">" = Raises e3 /\ eval "<=" = Raises e4) \/
  (exists lt gt, eval "<" = Returns lt /\ eval ">=" = Returns (negb lt) /\
                 eval ">" = Returns gt /\ eval "<=" = Returns (negb gt) /\
                 (lt && gt = false)).
Proof.
  intros Hx eval. subst eval. unfold _evaluate_condition; simpl. rewrite Hx.
  unfold py_lt, py_ge, py_gt, py_le, py_compare.
  destruct (py_order x value) as [[]|].
  - right. by exists false, false.
  - right. by exists true, false.
  - right. by exists false, true.
  - left. by exists TypeError, TypeError, TypeError, TypeError.
Qed.

Lemma ordering_operators_complementary_witness :
  let eval op :=
    _evaluate_condition {[ "quality_score" := PInt 65 ]} (Some "quality_score")
      (Some op) (PInt 80) in
  (exists e1 e2 e3 e4, eval "<" = Raises e1 /\ eval ">=" = Raises e2 /\
                       eval ">" = Raises e3 /\ eval "<=" = Raises e4) \/
  (exists lt gt, eval "<" = Returns lt /\ eval ">=" = Returns (negb lt) /\
                 eval ">" = Returns gt /\ eval "<=" = Returns (negb gt) /\
                 (lt && gt = false)).
Proof.
  apply (ordering_operators_complementary _ "quality_score" (PInt 65)). reflexivity.
Defined.

(** ** Runs: invariants of the loop *)

Section LoopInvariants.
Variable tools : gmap string tool.
Variable now : nat -> string.
Variable nodes : gmap string node_def.
Variable edges : gmap string string.
Variable conditional_edges : gmap string (list (string * condition_def)).

#[local] Abbreviation body := (loop_body tools now nodes edges conditional_edges).
#[local] Abbreviation loop := (while_loop tools now nodes edges conditional_edges).
#[local] Abbreviation run := (run_workflow tools now nodes edges conditional_edges).

(** A property of the local variables that every iteration keeps holds
    when the loop ends. *)
Lemma while_loop_invariant (I : run_state -> Prop) (state : loc) (max_iterations : Z) :
  (forall rs rs',
      I rs -> loop_cond max_iterations rs = true ->
      body state rs = Continue rs' \/ body state rs = Break rs' -> I rs') ->
  forall n rs h' rs',
    I rs -> loop n state max_iterations rs = Some (h', Returns rs') ->
    I rs' /\ h' = rs_heap rs'.
Proof.
  intros Hstep. induction n as [|n IH]; intros rs h' rs' HI; simpl.
  - destruct (loop_cond max_iterations rs); [done|]. by intros [= <- <-].
  - destruct (loop_cond max_iterations rs) eqn:Hc; [|by intros [= <- <-]].
    destruct (body state rs) as [rs1|rs1|h e] eqn:Hb.
    + apply IH. eapply Hstep; eauto.
    + intros [= <- <-]. split; [|reflexivity]. eapply Hstep; eauto.
    + discriminate.
Qed.

(** The loop as [run_workflow] enters it always ends. *)
Lemma while_loop_ends (h : heap) (initial_state : loc) (max_iterations : Z) :
  exists h' r,
    loop (Z.to_nat max_iterations) (fresh (dom h)) max_iterations
      (initial_run_state h initial_state (fresh (dom h))) = Some (h', r).
Proof.
  destruct (run_from_total tools now nodes edges conditional_edges (fresh (dom h))
              max_iterations (initial_run_state h initial_state (fresh (dom h))))
    as (h' & r & Hr & _).
  unfold run_from in Hr; simpl in Hr. rewrite Z.sub_0_r in Hr. eauto.
Qed.

(** X4. With [max_iterations <= 0] the loop body never runs: no node is
    visited, the returned state is a copy of the initial state, and the
    log consists of the max-iterations warning alone. *)
Theorem non_positive_cap_runs_nothing (h : heap) (initial_state : loc)
    (max_iterations : Z) :
  max_iterations <= 0 ->
  run h initial_state max_iterations =
    Some (<[fresh (dom h) := h !!! initial_state]> h,
          Returns (fresh (dom h), [WarningEntry "Max iterations reached" (now 0%nat)])).
Proof.
  intros Hmax. unfold run_workflow.
  replace (Z.to_nat max_iterations) with 0%nat by lia. simpl.
  unfold loop_cond, finish, initial_run_state; simpl.
  replace (Z.ltb 0 max_iterations) with false by (symmetry; apply Z.ltb_ge; lia).
  simpl.
  replace (Z.leb max_iterations 0) with true by (symmetry; apply Z.leb_le; lia).
  reflexivity.
Qed.

(** X3. The entries of the returned log are ordered by iteration: their
    ["iteration"] values increase strictly, each lies between 2 (the first
    iteration only resolves [START]) and [max_iterations], and the whole
    log, warning included, has at most [max(1, max_iterations)] entries. *)
Theorem log_is_ordered_by_iteration (h : heap) (initial_state : loc)
    (max_iterations : Z) :
  exists h' r,
    run h initial_state max_iterations = Some (h', r) /\
    forall state log, r = Returns (state, log) ->
      StronglySorted Z.lt (iterations log) /\
      Forall (fun i => 2 <= i <= max_iterations) (iterations log) /\
      Z.of_nat (length log) <= Z.max 1 max_iterations.
Proof.
  destruct (while_loop_ends h initial_state max_iterations) as (h' & r & Hr).
  unfold run_workflow. rewrite Hr.
  destruct r as [rs|e]; eexists _, _; (split; [reflexivity|]); [|done].
  intros state log [= <- <-].
  set (st := fresh (dom h)) in *.
  set (I := fun rs : run_state =>
    iteration rs <= Z.max 0 max_iterations /\
    ((iteration rs = 0 /\ current_node rs = Some "START" /\ execution_log rs = []) \/
     (1 <= iteration rs /\
      StronglySorted Z.lt (iterations (execution_log rs)) /\
      Forall (fun i => 2 <= i <= iteration rs) (iterations (execution_log rs)) /\
      Z.of_nat (length (execution_log rs)) + 1 <= iteration rs))).
  assert (I rs) as (Hcap & Hlog).
  { eapply (while_loop_invariant I); [| |exact Hr].
    - clear Hr rs. intros rs rs' (Hcap & Hlog) Hc Hb.
      apply loop_cond_true in Hc as [_ Hlt].
      split.
      { assert (iteration rs' = iteration rs + 1) as ->; [|lia].
        destruct Hb; [eapply loop_body_continue_iteration
                     |eapply loop_body_break_iteration]; eauto. }
      right. unfold loop_body in Hb.
      destruct Hlog as [(H0 & Hnode & Hempty)|(H1 & Hsorted & Hrange & Hlen)].
      + rewrite Hnode in Hb; simpl in Hb. rewrite Hempty in Hb.
        destruct (truthy (edges !! "START")); destruct Hb; simplify_eq; simpl;
          (split; [lia|]); (split; [constructor|]); (split; [constructor|]); lia.
      + assert (forall entry,
                  (exists hh, execute_node tools nodes (rs_heap rs) st
                     (iteration rs + 1) (current_node rs) (now (clock_reads rs)) =
                     Executed hh entry \/
                   execute_node tools nodes (rs_heap rs) st
                     (iteration rs + 1) (current_node rs) (now (clock_reads rs)) =
                     Failed hh entry) ->
                  iterations (execution_log rs ++ [entry]) =
                    iterations (execution_log rs) ++ [iteration rs + 1]) as Hentry.
        { intros entry [hh Hexec]. unfold iterations. rewrite omap_app.
          f_equal. unfold execute_node in Hexec.
          destruct Hexec as [Hexec|Hexec]; repeat case_match; by simplify_eq. }
        assert (StronglySorted Z.lt
                  (iterations (execution_log rs) ++ [iteration rs + 1]) /\
                Forall (fun i => 2 <= i <= iteration rs + 1)
                  (iterations (execution_log rs) ++ [iteration rs + 1])) as [Hs' Hr'].
        { split.
          - apply StronglySorted_app_2; [|done|repeat constructor].
            intros x1 x2 Hx1 ->%list_elem_of_singleton.
            rewrite Forall_forall in Hrange. specialize (Hrange x1 Hx1). lia.
          - apply Forall_app. split.
            + eapply Forall_impl; [exact Hrange|]. simpl. intros; lia.
            + repeat constructor; lia. }
        destruct (str_is (current_node rs) "START").
        { destruct (truthy (edges !! "START")); destruct Hb; simplify_eq; simpl;
            (split; [lia|]); (split; [done|]);
            (split; [eapply Forall_impl; [exact Hrange|]; simpl; intros; lia|lia]). }
        destruct (execute_node _ _ _ _ _ _ _) as [hh entry|hh entry|hh e] eqn:Hexec.
        * destruct (route _ _ _ _); destruct Hb; simplify_eq; simpl.
          rewrite (Hentry entry) by eauto. rewrite length_app; simpl.
          repeat split; try done; lia.
        * destruct Hb; simplify_eq; simpl.
          rewrite (Hentry entry) by eauto. rewrite length_app; simpl.
          repeat split; try done; lia.
        * destruct Hb; discriminate.
    - split; [simpl; lia|]. left. done. }
  assert (Forall (fun entry => is_warning entry = false) (execution_log rs)) as Hnw.
  { eapply while_loop_log; [|exact Hr]. constructor. }
  unfold finish.
  destruct (Z.leb max_iterations (iteration rs)) eqn:Hle.
  - apply Z.leb_le in Hle.
    unfold iterations. rewrite omap_app; simpl. rewrite app_nil_r, length_app; simpl.
    destruct Hlog as [(H0 & _ & ->)|(H1 & Hsorted & Hrange & Hlen)]; simpl.
    + repeat split; [constructor|constructor|lia].
    + repeat split; [done| |lia].
      eapply Forall_impl; [exact Hrange|]. simpl. intros; lia.
  - apply Z.leb_gt in Hle.
    destruct Hlog as [(H0 & _ & ->)|(H1 & Hsorted & Hrange & Hlen)]; simpl.
    + repeat split; [constructor|constructor|lia].
    + repeat split; [done| |lia].
      eapply Forall_impl; [exact Hrange|]. simpl. intros; lia.
Qed.

End LoopInvariants.

Lemma non_positive_cap_runs_nothing_witness :
  let h := heap_of {[ "code" := PStr "x" ]} in
  run_workflow main_tools tick_clock code_review_nodes code_review_edges
    code_review_conditional_edges h 0%nat 0 =
    Some (<[fresh (dom h) := h !!! 0%nat]> h,
          Returns (fresh (dom h), [WarningEntry "Max iterations reached" (tick_clock 0)])).
Proof.
  apply non_positive_cap_runs_nothing. lia.
Defined.

(** ** Runs: what they depend on *)

Section Dependencies.
Variable nodes : gmap string node_def.
Variable edges : gmap string string.
Variable conditional_edges : gmap string (list (string * condition_def)).






Lemma execute_node_tools_agree (tools1 tools2 : gmap string tool) (h : heap)
    (state : loc) (i : Z) (node : option string) (timestamp : string) :
  (forall A node_def name,
      nodes !! A = Some node_def -> nd_function node_def = Some name ->
      tools1 !! name = tools2 !! name) ->
  execute_node tools1 nodes h state i node timestamp =
  execute_node tools2 nodes h state i node timestamp.
Proof.
  intros Hagree. unfold execute_node.
  destruct node as [A|]; [|done].
  change (Some A ≫= (nodes !!.)) with (nodes !! A).
  destruct (nodes !! A) as [node_def|] eqn:HA; [|done].
  destruct (nd_function node_def) as [name|] eqn:Hname; [|done].
  change (Some name ≫= (tools1 !!.)) with (tools1 !! name).
  change (Some name ≫= (tools2 !!.)) with (tools2 !! name).
  by rewrite (Hagree A node_def name HA Hname).
Qed.

Lemma run_workflow_tools_agree (tools1 tools2 : gmap string tool)
    (now : nat -> string) (h : heap) (initial_state : loc) (max_iterations : Z) :
  (forall A node_def name,
      nodes !! A = Some node_def -> nd_function node_def = Some name ->
      tools1 !! name = tools2 !! name) ->
  run_workflow tools1 now nodes edges conditional_edges h initial_state max_iterations =
  run_workflow tools2 now nodes edges conditional_edges h initial_state max_iterations.
Proof.
  intros Hagree. unfold run_workflow.
  assert (forall n state rs,
            while_loop tools1 now nodes edges conditional_edges n state
              max_iterations rs =
            while_loop tools2 now nodes edges conditional_edges n state
              max_iterations rs) as ->; [|done].
  induction n as [|n IH]; intros state rs; simpl; [done|].
  destruct (loop_cond max_iterations rs); [|done].
  assert (loop_body tools1 now nodes edges conditional_edges state rs =
          loop_body tools2 now nodes edges conditional_edges state rs) as ->.
  { unfold loop_body. by rewrite (execute_node_tools_agree tools1 tools2). }
  destruct (loop_body tools2 _ _ _ _ _ _); auto.
Qed.

(** X2. Registering a tool under a name that no declared node gives as its
    ["function"] changes no run: the registry matters only at the names the
    graph refers to. *)
Theorem registering_unused_tool_changes_no_run (tools : gmap string tool)
    (name : string) (func : tool) (now : nat -> string) (h : heap)
    (initial_state : loc) (max_iterations : Z) :
  (forall A node_def, nodes !! A = Some node_def -> nd_function node_def <> Some name) ->
  run_workflow (register_tool tools name func) now nodes edges conditional_edges
    h initial_state max_iterations =
  run_workflow tools now nodes edges conditional_edges h initial_state max_iterations.
Proof.
  intros Hunused. apply run_workflow_tools_agree.
  intros A node_def name' HA Hname. unfold register_tool.
  apply lookup_insert_ne. intros ->. by apply (Hunused A node_def).
Qed.

End Dependencies.

Lemma registering_unused_tool_changes_no_run_witness :
  run_workflow (register_tool main_tools "lint" failing) tick_clock
    code_review_nodes code_review_edges code_review_conditional_edges
    (heap_of {[ "code" := PStr "x" ]}) 0%nat default_max_iterations =
  run_workflow main_tools tick_clock
    code_review_nodes code_review_edges code_review_conditional_edges
    (heap_of {[ "code" := PStr "x" ]}) 0%nat default_max_iterations.
Proof.
  apply registering_unused_tool_changes_no_run.
  intros A node_def HA Hname.
  assert (A ∈ dom code_review_nodes) as Hdom by (apply elem_of_dom; eauto).
  unfold code_review_nodes in HA, Hdom. simpl in HA, Hdom.
  rewrite !dom_insert_L, dom_empty_L in Hdom.
  repeat (apply elem_of_union in Hdom as [Hdom|Hdom];
          [apply elem_of_singleton in Hdom; subst A; vm_compute in HA;
           injection HA as <-; discriminate|]).
  by apply elem_of_empty in Hdom.
Defined.

(** ** Runs: how a handler's result reaches the state *)

Lemma dict_update_snoc (state : gmap string pyval) (result : list (string * pyval))
    (k : string) (v : pyval) :
  dict_update state (result ++ [(k, v)]) = <[k := v]> (dict_update state result).
Proof. unfold dict_update. by rewrite foldl_app. Qed.

(** After [state.update(result)] a key has the value of its last binding
    in [result], and the value it had when [result] does not bind it. *)
Lemma dict_update_lookup (state : gmap string pyval) (result : list (string * pyval))
    (k : string) :
  dict_update state result !! k =
    match assoc k (reverse result) with
    | Some v => Some v
    | None => state !! k
    end.
Proof.
  induction result as [|[k' v] result IH] using rev_ind; [reflexivity|].
  rewrite dict_update_snoc, reverse_app; simpl.
  destruct (String.eqb k k') eqn:Hk.
  - apply String.eqb_eq in Hk as <-. apply lookup_insert_eq.
  - apply String.eqb_neq in Hk. by rewrite lookup_insert_ne.
Qed.

(** X5. When the handler of a node returns, its result is logged as the
    output of a [success] entry whatever it is, and it is merged into the
    state only when it is a dictionary: then every key it binds gets its
    (last) value and every other key keeps the value the handler left;
    a result that is no dictionary leaves the state as the handler left
    it. *)
Theorem handler_result_is_merged_last_write_wins (tools : gmap string tool)
    (nodes : gmap string node_def) (h : heap) (state : loc) (i : Z)
    (A name timestamp : string) (node_def : node_def) (f : tool)
    (after : gmap string pyval) (result : pyval) :
  nodes !! A = Some node_def ->
  nd_function node_def = Some name ->
  name <> "" ->
  tools !! name = Some f ->
  f (h !!! state) = (after, Returns result) ->
  exists h',
    execute_node tools nodes h state i (Some A) timestamp =
      Executed h' (StepEntry i (Some A) timestamp (Success result)) /\
    match result with
    | PDict kvs =>
        forall k, (h' !!! state) !! k =
          match assoc k (reverse kvs) with
          | Some v => Some v
          | None => after !! k
          end
    | _ => h' !!! state = after
    end.
Proof.
  intros HA Hname Hne Htool Hcall.
  unfold execute_node, truthy.
  change (Some A ≫= (nodes !!.)) with (nodes !! A).
  rewrite HA, Hname.
  change (Some name ≫= (tools !!.)) with (tools !! name).
  rewrite (proj2 (String.eqb_neq _ _) Hne); cbn [negb].
  rewrite Htool, Hcall.
  eexists. split; [reflexivity|].
  destruct result; rewrite ?lookup_total_insert_eq; try reflexivity.
  intros k. apply dict_update_lookup.
Qed.

Lemma handler_result_is_merged_last_write_wins_witness :
  let s : gmap string pyval := {[ "count" := PInt 4 ]} in
  exists h',
    execute_node (example_tools "count") linear_nodes (heap_of s) 0%nat 2
      (Some "A") "1" =
      Executed h' (StepEntry 2 (Some "A") "1" (Success (PDict [("count", PInt 5)]))) /\
    forall k, (h' !!! 0%nat) !! k =
      match assoc k (reverse [("count", PInt 5)]) with
      | Some v => Some v
      | None => s !! k
      end.
Proof.
  intros s.
  apply (handler_result_is_merged_last_write_wins (example_tools "count")
           linear_nodes (heap_of s) 0%nat 2 "A" "increment" "1"
           (NodeDef (Some "increment") None) (increment "count") s
           (PDict [("count", PInt 5)]));
    try reflexivity.
  discriminate.
Defined.

(** ** The code-review workflow *)

Lemma route_check_quality (state : gmap string pyval) :
  route code_review_edges code_review_conditional_edges state (Some "check_quality") =
    match state !! "quality_score" with
    | None => Returns "END"
    | Some score =>
        match py_order score (PInt 80) with
        | Some Lt => Returns "refine_code"
        | Some _ => Returns "END"
        | None => Raises TypeError
        end
    end.
Proof.
  unfold route, code_review_conditional_edges.
  change (Some "check_quality" ≫= (({[ "check_quality" := ?c ]} : gmap _ _) !!.))
    with (({[ "check_quality" := c ]} : gmap string _) !! "check_quality").
  rewrite lookup_singleton_eq.
  unfold scan_conditions, _evaluate_condition; simpl.
  destruct (state !! "quality_score") as [score|]; [|reflexivity].
  unfold py_lt, py_ge, py_compare.
  destruct (py_order score (PInt 80)) as [[]|]; reflexivity.
Qed.

(** X9. Routing out of [check_quality] in the code-review workflow, for
    every state whose [quality_score], when present, is [None], a boolean,
    an integer, a string, a list or a dictionary (no floating-point
    number): with no [quality_score] both conditions are false and the
    simple edge leads to [END]; with an integer or boolean below 80 the
    run goes to [refine_code], with one that is 80 or more to [END]; with
    any other of these values the first comparison raises [TypeError]. *)
Theorem code_review_routes_on_quality_score (state : gmap string pyval) :
  route code_review_edges code_review_conditional_edges state (Some "check_quality") =
    match state !! "quality_score" with
    | None => Returns "END"
    | Some score =>
        match as_number score with
        | Some n => Returns (if Z.ltb n 80 then "refine_code" else "END")
        | None => Raises TypeError
        end
    end.
Proof.
  rewrite route_check_quality.
  destruct (state !! "quality_score") as [score|]; [|reflexivity].
  destruct score as [|b|n| | |]; simpl; try reflexivity.
  - destruct (Z.ltb_spec (Z.b2z b) 80) as [Hlt|Hge].
    + by rewrite (proj2 (Z.compare_lt_iff _ _) Hlt).
    + destruct (Z.compare_spec (Z.b2z b) 80); try reflexivity; lia.
  - destruct (Z.ltb_spec n 80) as [Hlt|Hge].
    + by rewrite (proj2 (Z.compare_lt_iff _ _) Hlt).
    + destruct (Z.compare_spec n 80); try reflexivity; lia.
Qed.

(** ** The engine of [app/main.py] *)

Section EmptyRegistry.
Variable now : nat -> string.
Variable nodes : gmap string node_def.
Variable edges : gmap string string.
Variable conditional_edges : gmap string (list (string * condition_def)).

Lemma execute_node_empty_registry (h : heap) (state : loc) (i : Z)
    (node : option string) (timestamp : string) :
  exists status,
    execute_node main_tools nodes h state i node timestamp =
      Executed h (StepEntry i node timestamp status) /\
    (status = NoStatus \/ status = Skipped "No function defined").
Proof.
  unfold execute_node.
  destruct (node ≫= (nodes !!.)) as [node_def|]; [|eauto].
  replace (if truthy (nd_function node_def)
           then nd_function node_def ≫= (main_tools !!.) else None)
    with (@None tool); [eauto|].
  destruct (truthy _); [|done]. by destruct (nd_function node_def).
Qed.

Lemma run_workflow_empty_registry (h : heap) (initial_state : loc)
    (max_iterations : Z) :
  exists r,
    run_workflow main_tools now nodes edges conditional_edges
      h initial_state max_iterations =
      Some (<[fresh (dom h) := h !!! initial_state]> h, r) /\
    forall state log, r = Returns (state, log) ->
      Forall (fun entry => status_of entry = None \/
                           status_of entry = Some "skipped") log.
Proof.
  destruct (while_loop_ends main_tools now nodes edges conditional_edges
              h initial_state max_iterations) as (h' & r & Hr).
  set (st := fresh (dom h)) in *.
  set (h0 := <[st := h !!! initial_state]> h).
  set (I := fun rs : run_state =>
    rs_heap rs = h0 /\
    Forall (fun entry => status_of entry = None \/
                         status_of entry = Some "skipped") (execution_log rs)).
  assert (forall rs, I rs ->
            match loop_body main_tools now nodes edges conditional_edges st rs with
            | Continue rs' | Break rs' => I rs'
            | Throw h1 _ => h1 = h0
            end) as Hstep.
  { intros rs [Hheap Hlog]. unfold loop_body.
    destruct (str_is (current_node rs) "START").
    - by destruct (truthy (edges !! "START")).
    - destruct (execute_node_empty_registry (rs_heap rs) st (iteration rs + 1)
                  (current_node rs) (now (clock_reads rs)))
        as (status & -> & Hstatus).
      destruct (route _ _ _ _); [|done].
      split; [done|]. simpl. apply Forall_app. split; [done|].
      constructor; [|constructor]. destruct Hstatus as [-> | ->]; auto. }
  assert (forall n rs h1 r1,
            I rs ->
            while_loop main_tools now nodes edges conditional_edges n st
              max_iterations rs = Some (h1, r1) ->
            h1 = h0 /\ forall rs', r1 = Returns rs' -> I rs') as Hloop.
  { induction n as [|n IH]; intros rs h1 r1 HI; simpl.
    - destruct (loop_cond max_iterations rs); [done|].
      intros [= <- <-]. split; [apply HI|]. by intros ? [= <-].
    - destruct (loop_cond max_iterations rs);
        [|intros [= <- <-]; split; [apply HI|]; by intros ? [= <-]].
      specialize (Hstep rs HI).
      destruct (loop_body main_tools now nodes edges conditional_edges st rs)
        as [rs1|rs1|h2 e2].
      + by apply IH.
      + intros [= <- <-]. split; [apply Hstep|]. by intros ? [= <-].
      + intros [= <- <-]. split; [done|]. intros ? [=]. }
  assert (I (initial_run_state h initial_state st)) as HI0
    by (split; [reflexivity|constructor]).
  destruct (Hloop _ _ _ _ HI0 Hr) as [-> Hfinal].
  unfold run_workflow. fold st. rewrite Hr.
  destruct r as [rs|e]; eexists; (split; [reflexivity|]); [|done].
  intros state log [= <- <-].
  destruct (Hfinal rs eq_refl) as [_ Hlog].
  unfold finish. destruct (Z.leb max_iterations (iteration rs)); [|done].
  apply Forall_app. split; [done|]. constructor; [by left|constructor].
Qed.

Lemma scan_conditions_raises_TypeError (s : gmap string pyval)
    (conditions : list (string * condition_def)) (e : pyexc) :
  scan_conditions s conditions = Raises e -> e = TypeError.
Proof.
  induction conditions as [|[key c] rest IH]; simpl; [done|].
  destruct (_evaluate_condition s (cd_field c) (cd_operator c) (cd_value c))
    as [[|]|e'] eqn:Heval; [done|exact IH|].
  intros [= <-]. revert Heval.
  unfold _evaluate_condition, py_ge, py_gt, py_le, py_lt, py_compare.
  repeat case_match; congruence.
Qed.

Lemma reaches_empty_registry_heap (state : loc) (max_iterations : Z)
    (a b : run_state) :
  reaches main_tools now nodes edges conditional_edges state max_iterations a b ->
  rs_heap b = rs_heap a.
Proof.
  induction 1 as [|rs rs1 rs2 _ Hb _ IH]; [done|].
  rewrite IH. revert Hb. unfold loop_body.
  destruct (str_is (current_node rs) "START").
  - destruct (truthy (edges !! "START")); [|done]. by intros [= <-].
  - destruct (execute_node_empty_registry (rs_heap rs) state (iteration rs + 1)
                (current_node rs) (now (clock_reads rs))) as (status & -> & _).
    destruct (route _ _ _ _); [|done]. by intros [= <-].
Qed.

Lemma while_loop_raises (tools : gmap string tool) (n : nat) (state : loc)
    (max_iterations : Z) (rs : run_state) (h' : heap) (e : pyexc) :
  while_loop tools now nodes edges conditional_edges n state max_iterations rs =
    Some (h', Raises e) ->
  exists rs',
    reaches tools now nodes edges conditional_edges state max_iterations rs rs' /\
    loop_cond max_iterations rs' = true /\
    loop_body tools now nodes edges conditional_edges state rs' = Throw h' e.
Proof.
  revert rs. induction n as [|n IH]; intros rs; simpl;
    destruct (loop_cond max_iterations rs) eqn:Hcond; try done.
  destruct (loop_body tools now nodes edges conditional_edges state rs)
    as [rs1|rs1|h1 e1] eqn:Hbody; [|done|].
  - intros Hloop. destruct (IH rs1 Hloop) as (rs' & Hreach & Hc & Hb).
    exists rs'. split; [|done]. eapply reaches_next; eauto.
  - intros [= <- <-]. exists rs. split; [apply reaches_here|done].
Qed.

(** With no tool registered, an exception of a run is the [TypeError] that
    the conditions of a visited node raise on the entries of the initial
    state. *)
Lemma run_workflow_empty_registry_raises (h h' : heap) (initial_state : loc)
    (max_iterations : Z) (e : pyexc) :
  run_workflow main_tools now nodes edges conditional_edges
    h initial_state max_iterations = Some (h', Raises e) ->
  e = TypeError /\
  exists rs conditions,
    reaches main_tools now nodes edges conditional_edges (fresh (dom h))
      max_iterations (initial_run_state h initial_state (fresh (dom h))) rs /\
    loop_cond max_iterations rs = true /\
    current_node rs ≫= (conditional_edges !!.) = Some conditions /\
    scan_conditions (h !!! initial_state) conditions = Raises e.
Proof.
  unfold run_workflow. set (st := fresh (dom h)).
  destruct (while_loop _ _ _ _ _ _ _ _ _) as [[h1 [rs1|e1]]|] eqn:Hloop; try done.
  intros [= <- <-].
  apply while_loop_raises in Hloop as (rs & Hreach & Hcond & Hbody).
  pose proof (reaches_empty_registry_heap _ _ _ _ Hreach) as Hheap.
  revert Hbody. unfold loop_body.
  destruct (str_is (current_node rs) "START").
  { by destruct (truthy (edges !! "START")). }
  destruct (execute_node_empty_registry (rs_heap rs) st (iteration rs + 1)
              (current_node rs) (now (clock_reads rs))) as (status & -> & _).
  unfold route.
  destruct (current_node rs ≫= (conditional_edges !!.)) as [conditions|] eqn:Hgroup;
    [|done].
  destruct (scan_conditions (rs_heap rs !!! st) conditions) as [[target|]|e2]
    eqn:Hscan; try done.
  intros [= _ <-]. rewrite Hheap in Hscan. simpl in Hscan.
  rewrite lookup_total_insert_eq in Hscan.
  split; [by eapply scan_conditions_raises_TypeError|].
  exists rs, conditions. auto.
Qed.

(** X10. With the registry of [app/main.py], in which no tool is ever
    registered, no handler runs on any graph: however the run ends, the
    state object holds exactly the entries of the initial state, and no
    entry of the returned log has status [success] or [error]. *)
Theorem empty_registry_runs_no_handler (h : heap) (initial_state : loc)
    (max_iterations : Z) :
  exists r,
    run_workflow main_tools now nodes edges conditional_edges
      h initial_state max_iterations =
      Some (<[fresh (dom h) := h !!! initial_state]> h, r) /\
    forall state log, r = Returns (state, log) ->
      Forall (fun entry => status_of entry = None \/
                           status_of entry = Some "skipped") log.
Proof. apply run_workflow_empty_registry. Qed.

End EmptyRegistry.

(** * The tools of the code-review workflow *)

Section ToolProperties.
Variable type_error_text : string -> pyval -> string.

#[local] Abbreviation suggest := (suggest_improvements type_error_text).
#[local] Abbreviation refine := (refine_code type_error_text).

Lemma suggested_score_formula (n c : Z) :
  (if Z.ltb 0 (100 - n * 10 - (if Z.ltb 5 c then 5 else c) * 5)
   then 100 - n * 10 - (if Z.ltb 5 c then 5 else c) * 5
   else 0) = Z.max 0 (100 - 10 * n - 5 * Z.min c 5).
Proof.
  destruct (Z.ltb_spec 5 c);
    [rewrite (Z.min_r c 5) by lia|rewrite (Z.min_l c 5) by lia];
    match goal with
    | |- context [Z.ltb 0 ?q] => destruct (Z.ltb_spec 0 q)
    end; lia.
Qed.

Lemma refine_code_returns (state : gmap string pyval) (q i : Z) :
  as_number (state_get state "quality_score" (PInt 0)) = Some q ->
  as_number (state_get state "iteration" (PInt 0)) = Some i ->
  refine state =
    (state, Returns (PDict [("quality_score", PInt (Z.min 100 (q + 15)));
                            ("iteration", PInt (i + 1));
                            ("refinement_applied", PBool true)])).
Proof.
  intros Hq Hi. unfold refine_code, pure_tool. rewrite Hq, Hi.
  destruct (Z.ltb_spec (q + 15) 100).
  - by rewrite Z.min_r by lia.
  - by rewrite Z.min_l by lia.
Qed.

Lemma suggest_improvements_returns (state : gmap string pyval) (n c lines : Z) :
  py_len (state_get state "issues" (PList [])) = Some n ->
  as_number (state_get state "complexity_score" (PInt 0)) = Some c ->
  as_number (state_get state "line_count" (PInt 0)) = Some lines ->
  exists suggestions,
    suggest state =
      (state, Returns (PDict [("suggestions", PList suggestions);
                              ("quality_score",
                                PInt (Z.max 0 (100 - 10 * n - 5 * Z.min c 5)))])) /\
    (length suggestions <= 3)%nat.
Proof.
  intros Hn Hc Hl.
  unfold suggest_improvements, pure_tool. rewrite Hc, Hn, Hl. cbv zeta.
  rewrite (suggested_score_formula n c).
  eexists. split; [reflexivity|].
  destruct (Z.ltb 10 c), (Z.ltb 0 n), (Z.ltb 100 lines); simpl; lia.
Qed.

(** X11. On a state whose [quality_score] and [iteration] are integers
    or booleans (an absent key counting as 0; floating-point scores are
    not covered), [refine_code] leaves the state itself
    untouched and returns an update with the score raised by 15 but capped
    at 100, [iteration] incremented and [refinement_applied] set: the new
    score never exceeds 100, is not below a score that was at most 100,
    and is 100 exactly when the old score was at least 85. *)
Theorem refine_code_raises_score_up_to_100 (state : gmap string pyval) (q i : Z) :
  as_number (state_get state "quality_score" (PInt 0)) = Some q ->
  as_number (state_get state "iteration" (PInt 0)) = Some i ->
  exists q',
    refine state =
      (state, Returns (PDict [("quality_score", PInt q');
                              ("iteration", PInt (i + 1));
                              ("refinement_applied", PBool true)])) /\
    q' = Z.min 100 (q + 15) /\
    q' <= 100 /\
    (q <= 100 -> q <= q') /\
    (q' = 100 <-> 85 <= q).
Proof.
  intros Hq Hi. exists (Z.min 100 (q + 15)).
  split; [by apply refine_code_returns|lia].
Qed.

(** X12. On a state whose [issues] is a string, list or dictionary of
    length [n] and whose [complexity_score] [c] and [line_count] are
    integers or booleans (absent keys counting as the empty list and 0;
    floating-point values are not covered), [suggest_improvements] returns at
    most three suggestions and the score
    [max(0, 100 - 10 * n - 5 * min(c, 5))]: it is never negative, and it
    is at most 100 when [c] is not negative. *)
Theorem suggest_improvements_score (state : gmap string pyval) (n c lines : Z) :
  py_len (state_get state "issues" (PList [])) = Some n ->
  as_number (state_get state "complexity_score" (PInt 0)) = Some c ->
  as_number (state_get state "line_count" (PInt 0)) = Some lines ->
  exists suggestions q,
    suggest state =
      (state, Returns (PDict [("suggestions", PList suggestions);
                              ("quality_score", PInt q)])) /\
    (length suggestions <= 3)%nat /\
    q = Z.max 0 (100 - 10 * n - 5 * Z.min c 5) /\
    0 <= q /\
    (0 <= c -> q <= 100).
Proof.
  intros Hn Hc Hl.
  assert (0 <= n) as Hn0.
  { destruct (state_get state "issues" (PList [])); simpl in Hn;
      try discriminate; injection Hn as <-; lia. }
  destruct (suggest_improvements_returns state n c lines Hn Hc Hl)
    as (suggestions & Hcall & Hlen).
  exists suggestions, (Z.max 0 (100 - 10 * n - 5 * Z.min c 5)).
  split; [exact Hcall|]. split; [exact Hlen|]. lia.
Qed.

(** A negative [complexity_score] pushes the score above 100. *)
Lemma suggest_improvements_score_above_100 :
  (suggest {[ "complexity_score" := PInt (-10) ]}).2 =
    Returns (PDict [("suggestions", PList []); ("quality_score", PInt 150)]).
Proof. reflexivity. Qed.

(** X13. [suggest_improvements] does not read what [refine_code] writes:
    on the state updated with the result of [refine_code] it returns what
    it returns on the state before, so the score [refine_code] has raised
    is overwritten by the same score as before. *)
Theorem suggest_improvements_discards_refinement (state : gmap string pyval)
    (kvs : list (string * pyval)) :
  (refine state).2 = Returns (PDict kvs) ->
  (suggest (dict_update state kvs)).2 = (suggest state).2.
Proof.
  unfold refine_code, pure_tool; simpl.
  destruct (as_number (state_get state "quality_score" (PInt 0))); [|discriminate].
  destruct (as_number (state_get state "iteration" (PInt 0))); [|discriminate].
  intros [= <-].
  unfold suggest_improvements, pure_tool, state_get, dict_update; simpl.
  by rewrite !lookup_insert_ne by done.
Qed.

End ToolProperties.

Lemma refine_code_raises_score_up_to_100_witness :
  exists q',
    refine_code plain_text {[ "quality_score" := PInt 70 ]} =
      ({[ "quality_score" := PInt 70 ]},
       Returns (PDict [("quality_score", PInt q');
                       ("iteration", PInt (0 + 1));
                       ("refinement_applied", PBool true)])) /\
    q' = Z.min 100 (70 + 15) /\
    q' <= 100 /\
    (70 <= 100 -> 70 <= q') /\
    (q' = 100 <-> 85 <= 70).
Proof.
  apply (refine_code_raises_score_up_to_100 plain_text); reflexivity.
Defined.

Lemma suggest_improvements_score_witness :
  exists suggestions q,
    suggest_improvements plain_text {[ "issues" := PList [PStr "Use of eval() detected"] ]} =
      ({[ "issues" := PList [PStr "Use of eval() detected"] ]},
       Returns (PDict [("suggestions", PList suggestions);
                       ("quality_score", PInt q)])) /\
    (length suggestions <= 3)%nat /\
    q = Z.max 0 (100 - 10 * 1 - 5 * Z.min 0 5) /\
    0 <= q /\
    (0 <= 0 -> q <= 100).
Proof.
  apply (suggest_improvements_score plain_text _ 1 0 0); reflexivity.
Defined.

Lemma suggest_improvements_discards_refinement_witness :
  let state : gmap string pyval :=
    {[ "issues" := PList [PStr "Use of eval() detected"] ]} in
  let kvs := [("quality_score", PInt 15); ("iteration", PInt 1);
              ("refinement_applied", PBool true)] in
  (suggest_improvements plain_text (dict_update state kvs)).2 = (suggest_improvements plain_text state).2.
Proof.
  intros state kvs. apply (suggest_improvements_discards_refinement plain_text). reflexivity.
Defined.

(** * The refinement loop of the code-review workflow *)

Section RefinementLoop.
Variable type_error_text : string -> pyval -> string.
Variable tools : gmap string tool.
Variable now : nat -> string.

Hypothesis suggest_registered :
  tools !! "suggest_improvements" = Some (suggest_improvements type_error_text).
Hypothesis refine_registered :
  tools !! "refine_code" = Some (refine_code type_error_text).

#[local] Abbreviation review_body :=
  (loop_body tools now code_review_nodes code_review_edges
     code_review_conditional_edges).

Lemma as_number_order (v : pyval) (q bound : Z) :
  as_number v = Some q -> py_order v (PInt bound) = Some (Z.compare q bound).
Proof. destruct v; simpl; intros [= <-]; reflexivity. Qed.

Lemma refinement_stuck_insert (state : gmap string pyval) (key : string) (v : pyval) :
  key <> "issues" -> key <> "complexity_score" -> key <> "line_count" ->
  (key = "iteration" -> exists i, as_number v = Some i) ->
  refinement_stuck state -> refinement_stuck (<[key := v]> state).
Proof.
  intros H1 H2 H3 H4 (n & c & lines & i & Hn & Hc & Hl & Hi & Hq).
  destruct (decide (key = "iteration")) as [->|Hne].
  - destruct (H4 eq_refl) as [i' Hi'].
    exists n, c, lines, i'. unfold state_get in *.
    rewrite !lookup_insert_ne by done. rewrite lookup_insert_eq. done.
  - exists n, c, lines, i. unfold state_get in *.
    by rewrite !lookup_insert_ne by done.
Qed.

(** [check_quality] with a score below 80: on to [refine_code]. *)
Lemma step_check_quality (state : loc) (rs : run_state) (s : gmap string pyval)
    (v : pyval) (q : Z) :
  current_node rs = Some "check_quality" ->
  rs_heap rs !! state = Some s ->
  s !! "quality_score" = Some v -> as_number v = Some q -> q < 80 ->
  review_body state rs =
    Continue (RunState (rs_heap rs) (Some "refine_code") (iteration rs + 1)
                (execution_log rs ++
                   [StepEntry (iteration rs + 1) (Some "check_quality")
                      (now (clock_reads rs)) NoStatus])
                (S (clock_reads rs))).
Proof.
  intros Hnode Hs Hv Hq Hlt. unfold loop_body, execute_node. rewrite Hnode.
  change (str_is (Some "check_quality") "START") with false.
  change (Some "check_quality" ≫= (code_review_nodes !!.)) with (@None node_def).
  cbv iota. rewrite route_check_quality, (lookup_total_correct _ _ _ Hs), Hv.
  rewrite (as_number_order v q 80 Hq).
  by rewrite (proj2 (Z.compare_lt_iff q 80) Hlt).
Qed.

(** [refine_code]: the update is merged, on to [suggest_improvements]. *)
Lemma step_refine_code (state : loc) (rs : run_state) (s : gmap string pyval)
    (q i : Z) :
  current_node rs = Some "refine_code" ->
  rs_heap rs !! state = Some s ->
  as_number (state_get s "quality_score" (PInt 0)) = Some q ->
  as_number (state_get s "iteration" (PInt 0)) = Some i ->
  exists entry,
    review_body state rs =
      Continue (RunState
                  (<[state := <["refinement_applied" := PBool true]>
                                (<["iteration" := PInt (i + 1)]>
                                   (<["quality_score" := PInt (Z.min 100 (q + 15))]> s))]>
                     (<[state := s]> (rs_heap rs)))
                  (Some "suggest_improvements") (iteration rs + 1)
                  (execution_log rs ++ [entry]) (S (clock_reads rs))).
Proof.
  intros Hnode Hs Hq Hi.
  pose proof (refine_code_returns type_error_text s q i Hq Hi) as Hcall.
  unfold loop_body, execute_node. rewrite Hnode.
  change (str_is (Some "refine_code") "START") with false.
  change (Some "refine_code" ≫= (code_review_nodes !!.))
    with (Some (NodeDef (Some "refine_code")
                  (Some "Apply refinements to improve quality"))).
  cbv iota beta. unfold nd_function, truthy.
  change (negb (String.eqb "refine_code" "")) with true. cbv iota.
  change (Some "refine_code" ≫= (tools !!.)) with (tools !! "refine_code").
  rewrite refine_registered, (lookup_total_correct _ _ _ Hs), Hcall.
  cbv iota beta zeta.
  rewrite lookup_total_insert_eq.
  eexists. reflexivity.
Qed.

(** [suggest_improvements]: the score is computed anew, back to
    [check_quality]. *)
Lemma step_suggest_improvements (state : loc) (rs : run_state)
    (s : gmap string pyval) (n c lines : Z) :
  current_node rs = Some "suggest_improvements" ->
  rs_heap rs !! state = Some s ->
  py_len (state_get s "issues" (PList [])) = Some n ->
  as_number (state_get s "complexity_score" (PInt 0)) = Some c ->
  as_number (state_get s "line_count" (PInt 0)) = Some lines ->
  exists entry suggestions,
    review_body state rs =
      Continue (RunState
                  (<[state := <["quality_score" :=
                                  PInt (Z.max 0 (100 - 10 * n - 5 * Z.min c 5))]>
                                (<["suggestions" := PList suggestions]> s)]>
                     (<[state := s]> (rs_heap rs)))
                  (Some "check_quality") (iteration rs + 1)
                  (execution_log rs ++ [entry]) (S (clock_reads rs))).
Proof.
  intros Hnode Hs Hn Hc Hl.
  destruct (suggest_improvements_returns type_error_text s n c lines Hn Hc Hl)
    as (suggestions & Hcall & _).
  unfold loop_body, execute_node. rewrite Hnode.
  change (str_is (Some "suggest_improvements") "START") with false.
  change (Some "suggest_improvements" ≫= (code_review_nodes !!.))
    with (Some (NodeDef (Some "suggest_improvements")
                  (Some "Generate improvement suggestions"))).
  cbv iota beta. unfold nd_function, truthy.
  change (negb (String.eqb "suggest_improvements" "")) with true. cbv iota.
  change (Some "suggest_improvements" ≫= (tools !!.))
    with (tools !! "suggest_improvements").
  rewrite suggest_registered, (lookup_total_correct _ _ _ Hs), Hcall.
  cbv iota beta zeta.
  rewrite lookup_total_insert_eq.
  eexists _, _. reflexivity.
Qed.

(** The three nodes of the loop, with a state that stays stuck. *)
Lemma refinement_loop_step (state : loc) (rs : run_state) :
  in_refinement_loop state rs ->
  exists rs', review_body state rs = Continue rs' /\ in_refinement_loop state rs'.
Proof.
  intros (s & Hs & Hstuck & [(Hnode & v & q & Hv & Hq & Hlt)
                            |[(Hnode & q & Hq)|Hnode]]).
  - eexists. split; [eapply step_check_quality; eauto|].
    exists s. split; [exact Hs|]. split; [exact Hstuck|].
    right; left. split; [reflexivity|]. exists q.
    unfold state_get. by rewrite Hv.
  - pose proof Hstuck as (n & c & lines & i & _ & _ & _ & Hi & _).
    destruct (step_refine_code state rs s q i Hnode Hs Hq Hi) as [entry ->].
    eexists. split; [reflexivity|]. simpl.
    eexists. split; [apply lookup_insert_eq|]. split; [|by right; right].
    repeat (apply refinement_stuck_insert; try done); intros _; simpl; eauto.
  - pose proof Hstuck as (n & c & lines & i & Hn & Hc & Hl & _ & Hbound).
    destruct (step_suggest_improvements state rs s n c lines Hnode Hs Hn Hc Hl)
      as (entry & suggestions & ->).
    eexists. split; [reflexivity|]. simpl.
    eexists. split; [apply lookup_insert_eq|]. split.
    + repeat (apply refinement_stuck_insert; try done).
    + left. split; [reflexivity|].
      eexists _, _. split; [apply lookup_insert_eq|]. split; [reflexivity|exact Hbound].
Qed.

(** A loop all of whose iterations continue ends at its head, with its
    condition false. *)
Lemma while_loop_only_continues (I : run_state -> Prop) (state : loc)
    (max_iterations : Z) :
  (forall rs, I rs -> exists rs', review_body state rs = Continue rs' /\ I rs') ->
  forall n rs h' r,
    I rs ->
    while_loop tools now code_review_nodes code_review_edges
      code_review_conditional_edges n state max_iterations rs = Some (h', r) ->
    exists rs', r = Returns rs' /\ I rs' /\ loop_cond max_iterations rs' = false.
Proof.
  intros Hstep. induction n as [|n IH]; intros rs h' r HI; simpl.
  - destruct (loop_cond max_iterations rs) eqn:Hc; [done|].
    intros [= _ <-]. eauto.
  - destruct (loop_cond max_iterations rs) eqn:Hc; [|intros [= _ <-]; eauto].
    destruct (Hstep rs HI) as (rs1 & -> & HI1). by apply IH.
Qed.

Lemma review_body_continue_no_error (state : loc) (rs rs' : run_state) :
  review_body state rs = Continue rs' ->
  Forall (fun entry => status_of entry <> Some "error") (execution_log rs) ->
  Forall (fun entry => status_of entry <> Some "error") (execution_log rs').
Proof.
  unfold loop_body. intros Hbody Hlog.
  destruct (str_is (current_node rs) "START").
  - destruct (truthy (code_review_edges !! "START")); by simplify_eq.
  - destruct (execute_node tools code_review_nodes (rs_heap rs) state
                (iteration rs + 1) (current_node rs) (now (clock_reads rs)))
      as [h1 entry|h1 entry|h1 e] eqn:Hexec; [|done..].
    assert (status_of entry <> Some "error") as Hentry.
    { unfold execute_node in Hexec. repeat case_match; by simplify_eq. }
    destruct (route _ _ _ _); simplify_eq; simpl.
    apply Forall_app. split; [done|]. by constructor.
Qed.

Lemma reaches_no_error (state : loc) (max_iterations : Z) (a b : run_state) :
  reaches tools now code_review_nodes code_review_edges
    code_review_conditional_edges state max_iterations a b ->
  Forall (fun entry => status_of entry <> Some "error") (execution_log a) ->
  Forall (fun entry => status_of entry <> Some "error") (execution_log b).
Proof.
  induction 1 as [|rs rs1 rs2 _ Hb _ IH]; [done|].
  intros Hlog. apply IH. by eapply review_body_continue_no_error.
Qed.

(** X14. The refinement loop of the code-review workflow does not
    converge.  With [suggest_improvements] and [refine_code] registered,
    once a run is at [check_quality] with an integer (or boolean) score
    below 80, in a state whose [issues] has a length, whose
    [complexity_score], [line_count] and [iteration] are integers or
    booleans and from which [suggest_improvements] computes a score below
    80, it cycles through [refine_code], [suggest_improvements] and
    [check_quality]: the loop ends at one of these three nodes, not at
    [END], with the iteration counter at [max_iterations] or beyond;
    nothing is raised, no entry of
    the log has status [error], and the returned log is the loop's log
    followed by the max-iterations warning. *)
Theorem code_review_refinement_never_converges (h : heap) (initial_state : loc)
    (max_iterations : Z) (rs : run_state) (s : gmap string pyval) (v : pyval)
    (q : Z) :
  let state := fresh (dom h) in
  reaches tools now code_review_nodes code_review_edges
    code_review_conditional_edges state max_iterations
    (initial_run_state h initial_state state) rs ->
  current_node rs = Some "check_quality" ->
  rs_heap rs !! state = Some s ->
  refinement_stuck s ->
  s !! "quality_score" = Some v -> as_number v = Some q -> q < 80 ->
  exists h' rs',
    while_loop tools now code_review_nodes code_review_edges
      code_review_conditional_edges (Z.to_nat max_iterations) state
      max_iterations (initial_run_state h initial_state state) =
      Some (h', Returns rs') /\
    current_node rs' <> Some "END" /\
    In (current_node rs')
      [Some "check_quality"; Some "refine_code"; Some "suggest_improvements"] /\
    max_iterations <= iteration rs' /\
    Forall (fun entry => status_of entry <> Some "error") (execution_log rs') /\
    run_workflow tools now code_review_nodes code_review_edges
      code_review_conditional_edges h initial_state max_iterations =
      Some (h', Returns (state,
              execution_log rs' ++
                [WarningEntry "Max iterations reached" (now (clock_reads rs'))])).
Proof.
  intros state Hreach Hnode Hs Hstuck Hv Hq Hlt.
  set (init := initial_run_state h initial_state state).
  assert (while_loop tools now code_review_nodes code_review_edges
            code_review_conditional_edges (Z.to_nat max_iterations) state
            max_iterations init =
          run_from tools now code_review_nodes code_review_edges
            code_review_conditional_edges state max_iterations rs) as Hsame.
  { rewrite <- (reaches_run_from _ _ _ _ _ _ _ _ _ Hreach).
    unfold run_from; simpl. by rewrite Z.sub_0_r. }
  destruct (run_from_total tools now code_review_nodes code_review_edges
              code_review_conditional_edges state max_iterations rs)
    as (h' & r & Hr & _).
  set (I := fun x : run_state =>
    in_refinement_loop state x /\
    Forall (fun entry => status_of entry <> Some "error") (execution_log x)).
  assert (I rs) as HI0.
  { split.
    - exists s. split; [exact Hs|]. split; [exact Hstuck|]. left.
      split; [exact Hnode|]. exists v, q. auto.
    - eapply reaches_no_error; [exact Hreach|]. constructor. }
  assert (forall x, I x -> exists x', review_body state x = Continue x' /\ I x')
    as Hstep.
  { intros x [Hin Hlog].
    destruct (refinement_loop_step state x Hin) as (x' & Hb & Hin').
    exists x'. split; [exact Hb|]. split; [exact Hin'|].
    by eapply review_body_continue_no_error. }
  pose proof Hr as Hr'. unfold run_from in Hr'.
  destruct (while_loop_only_continues I state max_iterations Hstep _ rs h' r
              HI0 Hr') as (rs' & -> & [HI Hlog] & Hcond).
  assert (str_is (current_node rs') "END" = false) as Hend.
  { destruct HI as (s' & _ & _ & [(Hn & _)|[(Hn & _)|Hn]]); by rewrite Hn. }
  unfold loop_cond in Hcond. rewrite Hend in Hcond. simpl in Hcond.
  apply Z.ltb_ge in Hcond.
  exists h', rs'. split; [by rewrite Hsame|].
  split.
  { intros Heq. by rewrite Heq in Hend. }
  split.
  { destruct HI as (s' & _ & _ & [(Hn & _)|[(Hn & _)|Hn]]); rewrite Hn; simpl; auto. }
  split; [exact Hcond|]. split; [exact Hlog|].
  unfold run_workflow. fold state. fold init. rewrite Hsame, Hr.
  unfold finish. by rewrite (proj2 (Z.leb_le _ _) Hcond).
Qed.

End RefinementLoop.

(** Three issues give the score 70: the run of the code-review workflow
    with the two tools registered ends by the cap. *)
Lemma code_review_refinement_never_converges_witness :
  let text := plain_text in
  let h := heap_of {[ "issues" := PList [PStr "a"; PStr "b"; PStr "c"] ]} in
  exists h' rs',
    while_loop (review_tools text) tick_clock code_review_nodes code_review_edges
      code_review_conditional_edges (Z.to_nat default_max_iterations)
      (fresh (dom h)) default_max_iterations
      (initial_run_state h 0%nat (fresh (dom h))) = Some (h', Returns rs') /\
    current_node rs' <> Some "END" /\
    In (current_node rs')
      [Some "check_quality"; Some "refine_code"; Some "suggest_improvements"] /\
    default_max_iterations <= iteration rs' /\
    Forall (fun entry => status_of entry <> Some "error") (execution_log rs') /\
    run_workflow (review_tools text) tick_clock code_review_nodes code_review_edges
      code_review_conditional_edges h 0%nat default_max_iterations =
      Some (h', Returns (fresh (dom h),
              execution_log rs' ++
                [WarningEntry "Max iterations reached"
                   (tick_clock (clock_reads rs'))])).
Proof.
  intros text h.
  eapply (code_review_refinement_never_converges text (review_tools text)
            tick_clock eq_refl eq_refl h 0%nat default_max_iterations).
  - do 5 (eapply reaches_next; [vm_compute; reflexivity|vm_compute; reflexivity|]).
    apply reaches_here.
  - reflexivity.
  - vm_compute. reflexivity.
  - exists 3, 0, 0, 0. repeat split; vm_compute; reflexivity.
  - vm_compute. reflexivity.
  - reflexivity.
  - lia.
Defined.

(** * The HTTP handlers *)

Lemma run_workflow_returns_fresh (tools : gmap string tool) (now : nat -> string)
    (nodes : gmap string node_def) (edges : gmap string string)
    (conditional_edges : gmap string (list (string * condition_def)))
    (h h' : heap) (initial_state state : loc) (max_iterations : Z)
    (log : list log_entry) :
  run_workflow tools now nodes edges conditional_edges h initial_state
    max_iterations = Some (h', Returns (state, log)) ->
  state = fresh (dom h).
Proof.
  unfold run_workflow.
  destruct (while_loop _ _ _ _ _ _ _ _ _) as [[h1 [rs|e]]|]; congruence.
Qed.

(** What [run_graph] does, case by case. *)
Lemma run_graph_cases (app : app_state) (request : graph_run_request)
    (run_id : string) (now : nat -> string) (started_at : string) :
  let h := heap_of (req_initial_state request) in
  (graphs app !! req_graph_id request = None /\
   run_graph app request run_id now started_at =
     Some (app, HTTPException 404 "Graph not found")) \/
  (exists graph rs conditions,
     graphs app !! req_graph_id request = Some graph /\
     reaches main_tools now (g_nodes graph) (g_edges graph)
       (g_conditional_edges graph) (fresh (dom h)) default_max_iterations
       (initial_run_state h 0%nat (fresh (dom h))) rs /\
     loop_cond default_max_iterations rs = true /\
     current_node rs ≫= (g_conditional_edges graph !!.) = Some conditions /\
     scan_conditions (req_initial_state request) conditions = Raises TypeError /\
     run_graph app request run_id now started_at =
       Some (app, Unhandled TypeError)) \/
  (exists log,
     is_Some (graphs app !! req_graph_id request) /\
     Forall (fun entry => status_of entry = None \/
                          status_of entry = Some "skipped") log /\
     run_graph app request run_id now started_at =
       Some (AppState (graphs app)
               (<[run_id := RunRecord run_id (req_graph_id request)
                              (req_initial_state request) log started_at]>
                  (runs app)),
             Ok (run_id, req_initial_state request, log))).
Proof.
  intros h. unfold run_graph.
  destruct (graphs app !! req_graph_id request) as [graph|]; [|by left].
  right. fold h.
  destruct (run_workflow_empty_registry now (g_nodes graph) (g_edges graph)
              (g_conditional_edges graph) h 0%nat default_max_iterations)
    as (r & Hrun & Hlog).
  rewrite Hrun.
  destruct r as [[state log]|e]; [right|left].
  - exists log. split; [eauto|]. split; [by eapply Hlog|].
    apply run_workflow_returns_fresh in Hrun as ->.
    rewrite lookup_total_insert_eq.
    unfold h, heap_of. by rewrite lookup_total_singleton.
  - apply run_workflow_empty_registry_raises
      in Hrun as (-> & rs & conditions & Hreach & Hcond & Hgroup & Hscan).
    exists graph, rs, conditions.
    split; [done|]. split; [exact Hreach|]. split; [exact Hcond|].
    split; [exact Hgroup|]. split; [|done]. revert Hscan.
    unfold h, heap_of. by rewrite lookup_total_singleton.
Qed.

(** X15. [run_graph] never hands back a changed state.  For every stored
    graph whose nodes give a string or nothing as their [function] and
    whose conditions are dictionaries with a string or nothing as
    [field], [operator] and [target], and for every initial state of
    values other than floating-point numbers, it ends in one of three
    ways: with 404 when the graph is unknown, nothing being stored; with
    the [TypeError] that routing raised, nothing being stored: the run
    came to a node, and the conditions of that node, evaluated on the
    entries of the request's [initial_state], raised it; or with a
    response whose [final_state] has exactly the entries of the
    request's [initial_state] and whose log has no [success] and no
    [error] entry, the engine of the module having no tool registered. *)
Theorem run_graph_returns_the_initial_state (app : app_state)
    (request : graph_run_request) (run_id : string) (now : nat -> string)
    (started_at : string) :
  let h := heap_of (req_initial_state request) in
  exists app' resp,
    run_graph app request run_id now started_at = Some (app', resp) /\
    match resp with
    | Ok (rid, final_state, log) =>
        rid = run_id /\
        final_state = req_initial_state request /\
        Forall (fun entry => status_of entry = None \/
                             status_of entry = Some "skipped") log /\
        graphs app' = graphs app
    | HTTPException status_code detail =>
        status_code = 404 /\ detail = "Graph not found" /\
        graphs app !! req_graph_id request = None /\ app' = app
    | Unhandled e =>
        app' = app /\ e = TypeError /\
        exists graph rs conditions,
          graphs app !! req_graph_id request = Some graph /\
          reaches main_tools now (g_nodes graph) (g_edges graph)
            (g_conditional_edges graph) (fresh (dom h)) default_max_iterations
            (initial_run_state h 0%nat (fresh (dom h))) rs /\
          loop_cond default_max_iterations rs = true /\
          current_node rs ≫= (g_conditional_edges graph !!.) = Some conditions /\
          scan_conditions (req_initial_state request) conditions = Raises e
    end.
Proof.
  intros h.
  destruct (run_graph_cases app request run_id now started_at)
    as [[Hnone ->]|[(graph & rs & conditions & Hg & Hreach & Hcond & Hgroup &
                     Hscan & ->)|(log & _ & Hlog & ->)]];
    eexists _, _; (split; [reflexivity|]); simpl; auto.
  split; [done|]. split; [done|]. exists graph, rs, conditions. auto.
Qed.

(** X16. A run that [run_graph] answers can be fetched: [get_run_state]
    with the returned [run_id] gives the record holding the same
    [final_state] and [execution_log] as the response, with the graph's
    id; the records of other run ids and the stored graphs are as
    before. *)
Theorem run_graph_result_can_be_fetched (app app' : app_state)
    (request : graph_run_request) (run_id rid : string) (now : nat -> string)
    (started_at : string) (final_state : gmap string pyval)
    (log : list log_entry) :
  run_graph app request run_id now started_at =
    Some (app', Ok (rid, final_state, log)) ->
  get_run_state app' rid =
    Ok (RunRecord rid (req_graph_id request) final_state log started_at) /\
  (forall other, other <> rid -> get_run_state app' other = get_run_state app other) /\
  graphs app' = graphs app.
Proof.
  destruct (run_graph_cases app request run_id now started_at)
    as [[_ ->]|[(graph & rs & conditions & _ & _ & _ & _ & _ & ->)|
                (log' & _ & _ & ->)]]; try discriminate.
  intros [= <- <- <- <-]. unfold get_run_state; simpl.
  rewrite lookup_insert_eq. repeat split.
  intros other Hother. by rewrite lookup_insert_ne.
Qed.

Lemma run_graph_result_can_be_fetched_witness :
  let app := (create_code_review_graph (AppState ∅ ∅) "g1" "t0").1 in
  let s : gmap string pyval := {[ "code" := PStr "x" ]} in
  let request := GraphRunRequest "g1" s in
  exists app' log,
    run_graph app request "r1" tick_clock "t9" = Some (app', Ok ("r1", s, log)) /\
    get_run_state app' "r1" = Ok (RunRecord "r1" "g1" s log "t9").
Proof.
  intros app s request.
  assert (exists app' log,
            run_graph app request "r1" tick_clock "t9" =
              Some (app', Ok ("r1", s, log))) as (app' & log & Hrun)
    by (eexists _, _; vm_compute; reflexivity).
  exists app', log. split; [exact Hrun|].
  apply (run_graph_result_can_be_fetched app app' request "r1" "r1" tick_clock
           "t9" s log Hrun).
Defined.

(** [check_quality] on a state without [quality_score]: on to [END]. *)
Lemma step_check_quality_no_score (tools : gmap string tool) (now : nat -> string)
    (state : loc) (rs : run_state) (s : gmap string pyval) :
  current_node rs = Some "check_quality" ->
  rs_heap rs !! state = Some s ->
  s !! "quality_score" = None ->
  loop_body tools now code_review_nodes code_review_edges
    code_review_conditional_edges state rs =
    Continue (RunState (rs_heap rs) (Some "END") (iteration rs + 1)
                (execution_log rs ++
                   [StepEntry (iteration rs + 1) (Some "check_quality")
                      (now (clock_reads rs)) NoStatus])
                (S (clock_reads rs))).
Proof.
  intros Hnode Hs Hscore. unfold loop_body, execute_node. rewrite Hnode.
  change (str_is (Some "check_quality") "START") with false.
  change (Some "check_quality" ≫= (code_review_nodes !!.)) with (@None node_def).
  cbv iota. by rewrite route_check_quality, (lookup_total_correct _ _ _ Hs), Hscore.
Qed.

Lemma code_review_run_without_tools (now : nat -> string) (s : gmap string pyval) :
  s !! "quality_score" = None ->
  run_workflow main_tools now code_review_nodes code_review_edges
    code_review_conditional_edges (heap_of s) 0%nat default_max_iterations =
    Some (<[1%nat := s]> (heap_of s), Returns (1%nat, skipped_review_log now)).
Proof.
  intros Hscore. rewrite run_workflow_run_from.
  change (fresh (dom (heap_of s))) with 1%nat.
  unfold initial_run_state, heap_of. rewrite lookup_total_singleton.
  set (h := <[1%nat := s]> ({[0%nat := s]} : heap)).
  rewrite (run_from_continue _ _ _ _ _ _ _ _
             (RunState h (Some "extract_functions") 1 [] 1)) by reflexivity.
  rewrite (run_from_continue _ _ _ _ _ _ _ _
             (RunState h (Some "check_complexity") 2
                (take 1 (skipped_review_log now)) 2)) by reflexivity.
  rewrite (run_from_continue _ _ _ _ _ _ _ _
             (RunState h (Some "detect_issues") 3
                (take 2 (skipped_review_log now)) 3)) by reflexivity.
  rewrite (run_from_continue _ _ _ _ _ _ _ _
             (RunState h (Some "suggest_improvements") 4
                (take 3 (skipped_review_log now)) 4)) by reflexivity.
  rewrite (run_from_continue _ _ _ _ _ _ _ _
             (RunState h (Some "check_quality") 5
                (take 4 (skipped_review_log now)) 5)) by reflexivity.
  rewrite (run_from_continue _ _ _ _ _ _ _ _
             (RunState h (Some "END") 6 (skipped_review_log now) 6)).
  - by rewrite run_from_stop.
  - reflexivity.
  - rewrite (step_check_quality_no_score main_tools now 1%nat _ s);
      [reflexivity|reflexivity|apply lookup_insert_eq|exact Hscore].
Qed.

(** X17. The code-review workflow over HTTP runs no step.  After
    [create_code_review_graph], [run_graph] on that graph with an initial
    state that has no [quality_score] answers with the initial state as
    [final_state] and a log of five entries: the four declared nodes it
    passes are [skipped], [check_quality] is logged without status, and
    there is no warning; the run is stored under [run_id]. *)
Theorem code_review_over_http_skips_every_node (app : app_state)
    (graph_id created_at run_id started_at : string) (now : nat -> string)
    (initial_state : gmap string pyval) :
  initial_state !! "quality_score" = None ->
  let app1 := (create_code_review_graph app graph_id created_at).1 in
  run_graph app1 (GraphRunRequest graph_id initial_state) run_id now started_at =
    Some (AppState (graphs app1)
            (<[run_id := RunRecord run_id graph_id initial_state
                           (skipped_review_log now) started_at]> (runs app)),
          Ok (run_id, initial_state, skipped_review_log now)) /\
  status_of <$> skipped_review_log now =
    [Some "skipped"; Some "skipped"; Some "skipped"; Some "skipped"; None].
Proof.
  intros Hscore app1. split; [|reflexivity].
  unfold run_graph, app1, create_code_review_graph; simpl.
  rewrite lookup_insert_eq; simpl.
  rewrite (code_review_run_without_tools now initial_state Hscore).
  by rewrite lookup_total_insert_eq.
Qed.

Lemma code_review_over_http_skips_every_node_witness :
  let s : gmap string pyval := {[ "code" := PStr "x" ]} in
  let app1 := (create_code_review_graph (AppState ∅ ∅) "g1" "t0").1 in
  run_graph app1 (GraphRunRequest "g1" s) "r1" tick_clock "t9" =
    Some (AppState (graphs app1)
            (<[ "r1" := RunRecord "r1" "g1" s (skipped_review_log tick_clock) "t9"]> ∅),
          Ok ("r1", s, skipped_review_log tick_clock)) /\
  status_of <$> skipped_review_log tick_clock =
    [Some "skipped"; Some "skipped"; Some "skipped"; Some "skipped"; None].
Proof.
  intros s app1.
  apply (code_review_over_http_skips_every_node (AppState ∅ ∅) "g1" "t0" "r1"
           "t9" tick_clock s).
  reflexivity.
Defined.
